(** * Jira adapter (jira_mcp.py): shallow embedding and verified properties

    The adapter normalises the JSON documents of the Jira REST API into
    [JiraIssue] / [JiraProject] records, builds JQL expressions from filter
    arguments and dispatches resource reads and tool calls.

    Modelling conventions:
    - the values that [response.json()] yields are terms of [json]; a dict is
      the list of its members in insertion order, with distinct keys;
    - a Python [str] is a [string] (its bytes).  For the comparison with the
      literal "me", [str.lower] is [lower], the lower-casing of the ASCII
      letters: no letter outside ASCII lowers to "m" or "e", so the two
      decide alike.  Where the source lower-cases arbitrary names on both
      sides ([transition_issue]), the builtin is the parameter [str_lower];
    - an expression that may raise evaluates to an [outcome]; sub-expressions
      are sequenced in Python's left-to-right evaluation order;
    - the manager methods run in the [io] monad, which records every HTTP
      request sent and obtains the answers from a [backend]. *)

From Stdlib Require Import String Ascii List ZArith Bool Lia.
Import ListNotations.

#[local] Open Scope list_scope.
#[local] Open Scope string_scope.

(* ===================================================================== *)
(** ** Python values *)

(** Values produced by [response.json()].  Numbers carry an integer value. *)
#[warning="-register-all"]
Inductive json : Type :=
| JNull
| JBool (b : bool)
| JNum (n : Z)
| JStr (s : string)
| JArr (items : list json)
| JObj (members : list (string * json)).

(** The exceptions (all subclasses of [Exception]) that the adapter, the
    interpreter and httpx raise on the paths modelled here. *)
Inductive exn : Type :=
| KeyError (key : json)
| IndexError
| AttributeError
| TypeError
| ValueError (msg : string)
| JSONDecodeError
| HTTPStatusError (status : Z)
| RequestError.

Inductive outcome (A : Type) : Type :=
| Return (a : A)
| Raise (e : exn).

Arguments Return {A} a.
Arguments Raise {A} e.

Definition obind {A B : Type} (m : outcome A) (k : A -> outcome B) : outcome B :=
  match m with
  | Return a => k a
  | Raise e => Raise e
  end.

Declare Scope outcome_scope.
Delimit Scope outcome_scope with outcome.
Notation "x <- m ;; k" := (obind m (fun x => k))
  (at level 61, m at next level, right associativity) : outcome_scope.

(** Truth value of a Python object ([if v], [not v]). *)
Definition truthy (v : json) : bool :=
  match v with
  | JNull => false
  | JBool b => b
  | JNum n => negb (n =? 0)%Z
  | JStr s => negb (s =? "")
  | JArr items => match items with [] => false | _ => true end
  | JObj members => match members with [] => false | _ => true end
  end.

Fixpoint lookup (k : string) (members : list (string * json)) : option json :=
  match members with
  | [] => None
  | (k', v) :: rest => if k' =? k then Some v else lookup k rest
  end.

(** [v.get(k, default)]: only a dict has the method. *)
Definition py_get (v : json) (k : string) (default : json) : outcome json :=
  match v with
  | JObj members =>
      Return (match lookup k members with Some x => x | None => default end)
  | _ => Raise AttributeError
  end.

(** [v[k]] for a string key [k]. *)
Definition py_getitem (v : json) (k : string) : outcome json :=
  match v with
  | JObj members =>
      match lookup k members with
      | Some x => Return x
      | None => Raise (KeyError (JStr k))
      end
  | _ => Raise TypeError
  end.

(** [v[0]].  A dict built from JSON has string keys only, so [0] is never one
    of them. *)
Definition py_getitem0 (v : json) : outcome json :=
  match v with
  | JArr (x :: _) => Return x
  | JArr [] => Raise IndexError
  | JStr (String c _) => Return (JStr (String c ""))
  | JStr "" => Raise IndexError
  | JObj _ => Raise (KeyError (JNum 0))
  | _ => Raise TypeError
  end.

(** [for x in v]: the elements visited. *)
Definition py_iter (v : json) : outcome (list json) :=
  match v with
  | JArr items => Return items
  | JObj members => Return (map (fun kv => JStr (fst kv)) members)
  | JStr s => Return (map (fun c => JStr (String c "")) (list_ascii_of_string s))
  | _ => Raise TypeError
  end.

(** [str.lower] on the ASCII letters. *)
Definition lower_ascii (c : ascii) : ascii :=
  let n := nat_of_ascii c in
  if (65 <=? n)%nat && (n <=? 90)%nat then ascii_of_nat (n + 32) else c.

Fixpoint lower (s : string) : string :=
  match s with
  | "" => ""
  | String c rest => String (lower_ascii c) (lower rest)
  end.

(** [v.lower()], where [str_lower] is the interpreter's [str.lower]. *)
Definition py_lower (str_lower : string -> string) (v : json) : outcome string :=
  match v with
  | JStr s => Return (str_lower s)
  | _ => Raise AttributeError
  end.

(** Sequencing of a fallible computation over a list, left to right: a list
    comprehension or a [for] loop that appends one result per element. *)
Fixpoint traverse {A B : Type} (f : A -> outcome B) (l : list A) : outcome (list B) :=
  match l with
  | [] => Return []
  | x :: rest =>
      (y <- f x ;;
       ys <- traverse f rest ;;
       Return (y :: ys))%outcome
  end.

(* ===================================================================== *)
(** ** Canonical models *)

(** The dataclasses annotate their fields as [str]; what is stored is
    whatever value the backend document holds at that place. *)
Record JiraIssue : Type := mkJiraIssue {
  key : json;
  summary : json;
  status : json;
  assignee : json;
  priority : json;
  issue_type : json;
  created : json;
  updated : json;
  description : json
}.

Record JiraProject : Type := mkJiraProject {
  project_key : json;
  name : json;
  project_type : json;
  lead : json
}.

(* ===================================================================== *)
(** ** Query builder ([search_issues], construction of [jql]) *)

(** The condition appended for a non-empty [assignee]. *)
Definition assignee_condition (assignee : string) : string :=
  if lower assignee =? "me"
  then "assignee = currentUser()"
  else "assignee = '" ++ assignee ++ "'".

Definition project_condition (project : string) : string :=
  "project = '" ++ project ++ "'".

(** Truth value of an optional [str] argument ([None] and [""] are false). *)
Definition given (a : option string) : bool :=
  match a with
  | Some (String _ _) => true
  | _ => false
  end.

Definition conditions (assignee project : option string) : list string :=
  ((match assignee with
   | Some a => if given assignee then [assignee_condition a] else []
   | None => []
   end) ++
   (match project with
   | Some p => if given project then [project_condition p] else []
   | None => []
   end))%list.

Definition build_jql (jql assignee project : option string) : string :=
  match jql with
  | Some (String c rest) => String c rest
  | _ =>
      match conditions assignee project with
      | [] => "order by updated DESC"
      | cs => String.concat " AND " cs
      end
  end.

(* ===================================================================== *)
(** ** Response normaliser (the [JiraIssue(...)] expression of
       [search_issues] and [get_issue], the [JiraProject(...)] expression of
       [get_projects]) *)

Section Normalizer.
#[local] Open Scope outcome_scope.

Definition field_summary (fields : json) : outcome json :=
  py_get fields "summary" (JStr "Sin título").

Definition field_status (fields : json) : outcome json :=
  st <- py_get fields "status" (JObj []) ;;
  py_get st "name" (JStr "Desconocido").

Definition field_assignee (fields : json) : outcome json :=
  c <- py_get fields "assignee" JNull ;;
  if truthy c
  then (a <- py_get fields "assignee" (JObj []) ;;
        py_get a "displayName" (JStr "Sin asignar"))
  else Return (JStr "Sin asignar").

Definition field_priority (fields : json) : outcome json :=
  c <- py_get fields "priority" JNull ;;
  if truthy c
  then (p <- py_get fields "priority" (JObj []) ;;
        py_get p "name" (JStr "Sin prioridad"))
  else Return (JStr "Sin prioridad").

Definition field_issue_type (fields : json) : outcome json :=
  t <- py_get fields "issuetype" (JObj []) ;;
  py_get t "name" (JStr "Desconocido").

Definition field_created (fields : json) : outcome json :=
  py_get fields "created" (JStr "").

Definition field_updated (fields : json) : outcome json :=
  py_get fields "updated" (JStr "").

Definition field_description (fields : json) : outcome json :=
  c <- py_get fields "description" JNull ;;
  if truthy c
  then (doc <- py_get fields "description" (JObj []) ;;
        blocks <- py_get doc "content" (JArr [JObj []]) ;;
        block <- py_getitem0 blocks ;;
        runs <- py_get block "content" (JArr [JObj []]) ;;
        run <- py_getitem0 runs ;;
        py_get run "text" (JStr ""))
  else Return (JStr "").

Definition issue_from_json (issue : json) : outcome JiraIssue :=
  fields <- py_getitem issue "fields" ;;
  k <- py_getitem issue "key" ;;
  s <- field_summary fields ;;
  st <- field_status fields ;;
  a <- field_assignee fields ;;
  p <- field_priority fields ;;
  t <- field_issue_type fields ;;
  c <- field_created fields ;;
  u <- field_updated fields ;;
  d <- field_description fields ;;
  Return (mkJiraIssue k s st a p t c u d).

Definition project_from_json (project : json) : outcome JiraProject :=
  k <- py_getitem project "key" ;;
  n <- py_getitem project "name" ;;
  t <- py_get project "projectTypeKey" (JStr "unknown") ;;
  l <- py_get project "lead" (JObj []) ;;
  ld <- py_get l "displayName" (JStr "Sin asignar") ;;
  Return (mkJiraProject k n t ld).

End Normalizer.

(* ===================================================================== *)
(** ** HTTP exchange *)

Inductive http_method : Type := GET | POST | PUT.

Record request : Type := mkRequest {
  meth : http_method;
  url : string;
  req_headers : list (string * string);
  params : list (string * json);
  payload : option json
}.

(** A response: its status code and, when the body parses as JSON, the
    parsed body. *)
Record response : Type := mkResponse {
  status_code : Z;
  content : option json
}.

(** What a request meets: an answer, or a transport failure. *)
Inductive netreply : Type :=
| Responded (r : response)
| Unreachable.

Definition is_success (r : response) : bool :=
  (200 <=? status_code r)%Z && (status_code r <? 300)%Z.

(** Computations that send requests: the requests sent so far are threaded
    through, and a computation ends with a value or an exception. *)
Definition io (A : Type) : Type := list request -> list request * outcome A.

Definition ret {A : Type} (a : A) : io A := fun log => (log, Return a).

Definition raise {A : Type} (e : exn) : io A := fun log => (log, Raise e).

Definition bind {A B : Type} (m : io A) (k : A -> io B) : io B :=
  fun log =>
    match m log with
    | (log', Return a) => k a log'
    | (log', Raise e) => (log', Raise e)
    end.

(** [try: m except Exception as e: handler e]. *)
Definition try_except {A : Type} (m : io A) (handler : exn -> io A) : io A :=
  fun log =>
    match m log with
    | (log', Return a) => (log', Return a)
    | (log', Raise e) => handler e log'
    end.

Definition lift {A : Type} (o : outcome A) : io A := fun log => (log, o).

Declare Scope io_scope.
Delimit Scope io_scope with io.
Notation "x <- m ;; k" := (bind m (fun x => k))
  (at level 61, m at next level, right associativity) : io_scope.
Notation "m ;;; k" := (bind m (fun _ => k))
  (at level 61, right associativity) : io_scope.

(** [response.raise_for_status()]. *)
Definition raise_for_status (r : response) : io unit :=
  if is_success r then ret tt else raise (HTTPStatusError (status_code r)).

(** [response.json()]. *)
Definition response_json (r : response) : io json :=
  match content r with
  | Some body => ret body
  | None => raise JSONDecodeError
  end.

(** The exception with which a call followed by [raise_for_status] ends, if
    it fails. *)
Definition failure (n : netreply) : option exn :=
  match n with
  | Unreachable => Some RequestError
  | Responded r =>
      if is_success r then None else Some (HTTPStatusError (status_code r))
  end.

(** The state of a [JiraManager] after [__init__]. *)
Record JiraManager : Type := mkJiraManager {
  jira_url : string;
  headers : list (string * string)
}.

Definition issue_fields : string :=
  "summary,status,assignee,priority,issuetype,created,updated,description".

(** Value of [transition_id] when the loop of [transition_issue] ends;
    [str_lower] is the interpreter's [str.lower]. *)
Fixpoint find_transition (str_lower : string -> string)
    (transitions : list json) (transition_name : string) : outcome json :=
  match transitions with
  | [] => Return JNull
  | transition :: rest =>
      (n <- py_getitem transition "name" ;;
       ln <- py_lower str_lower n ;;
       if ln =? str_lower transition_name
       then py_getitem transition "id"
       else find_transition str_lower rest transition_name)%outcome
  end.

(** Arguments of a tool call, typed as the input schemas of [list_tools]
    declare them: every property is a string, [max_results] an integer. *)
Record arguments : Type := mkArguments {
  strings : list (string * string);
  max_results_arg : option Z
}.

Fixpoint arg (k : string) (l : list (string * string)) : option string :=
  match l with
  | [] => None
  | (k', v) :: rest => if k' =? k then Some v else arg k rest
  end.

(** The [return] statements of [call_tool], each with the values its
    template is filled with.  The f-string templates of the replies that
    render issues (formatting and slicing of the field values) are not
    expanded: such a reply stands for control reaching that template. *)
Inductive reply : Type :=
| NoIssuesFound
| IssuesFound (issues : list JiraIssue)
| MissingIssueKey
| IssueNotFound (issue_key : string)
| IssueDetails (issue : JiraIssue)
| MissingCreateArgs
| IssueCreated (issue_key : json) (summary : string)
| MissingTransitionArgs
| TransitionDone (issue_key transition : string)
| TransitionFailed (issue_key transition : string)
| NoAssignedIssues
| MyIssues (issues : list JiraIssue)
| UnknownTool (name : string)
| ErrorReply (e : exn).

(** Text of the replies whose template holds strings only. *)
Definition reply_text (r : reply) : option string :=
  match r with
  | NoIssuesFound => Some "🔍 No se encontraron issues con esos criterios"
  | MissingIssueKey => Some "❌ Error: Se requiere issue_key"
  | IssueNotFound k => Some ("❌ No se encontró el issue: " ++ k)
  | MissingCreateArgs => Some "❌ Error: Se requieren project_key, summary y description"
  | MissingTransitionArgs => Some "❌ Error: Se requieren issue_key y transition"
  | TransitionDone k t =>
      Some ("✅ Issue " ++ k ++ " movido a '" ++ t ++ "' exitosamente")
  | TransitionFailed k t =>
      Some ("❌ No se pudo mover " ++ k ++ " a '" ++ t
            ++ "'. Verifica que la transición sea válida.")
  | NoAssignedIssues => Some "📋 No tienes issues asignados"
  | UnknownTool n => Some ("❌ Herramienta desconocida: " ++ n)
  | _ => None
  end.

Definition issue_row (keys : list (string * (JiraIssue -> json))) (i : JiraIssue) : json :=
  JObj (map (fun kf => (fst kf, snd kf i)) keys).

Definition project_row (p : JiraProject) : json :=
  JObj [("key", project_key p); ("name", name p);
        ("type", project_type p); ("lead", lead p)].

(* ===================================================================== *)
(** ** Construction of the manager ([JiraManager.__init__]) *)

(** [s.rstrip(ch)] for a single character [ch]. *)
Fixpoint rstrip (ch : ascii) (s : string) : string :=
  match s with
  | "" => ""
  | String c rest =>
      match rstrip ch rest with
      | "" => if Ascii.eqb c ch then "" else String c ""
      | kept => String c kept
      end
  end.

(** Whether [s.encode('ascii')] succeeds: every byte of the text is below
    128 (a character outside ASCII has only bytes from 128 on). *)
Definition is_ascii (s : string) : bool :=
  forallb (fun c => (nat_of_ascii c <? 128)%nat) (list_ascii_of_string s).

(** Outcome of [JiraManager(jira_url, email, api_token)]. *)
Inductive construction : Type :=
| Constructed (self : JiraManager)
| UnicodeEncodeError.

(** [b64encode] stands for [base64.b64encode(...).decode('ascii')]. *)
Definition JiraManager_init (b64encode : string -> string)
    (jira_url email api_token : string) : construction :=
  let base := rstrip "/" jira_url in
  let auth_string := email ++ ":" ++ api_token in
  if is_ascii auth_string
  then Constructed
         (mkJiraManager base
            [("Authorization", "Basic " ++ b64encode auth_string);
             ("Accept", "application/json");
             ("Content-Type", "application/json")])
  else UnicodeEncodeError.

Definition myself_request (self : JiraManager) : request :=
  mkRequest GET (jira_url self ++ "/rest/api/3/myself") (headers self) [] None.

(* ===================================================================== *)
(** ** Declared resources and tools ([list_resources], [list_tools]) *)

Record Resource : Type := mkResource {
  resource_uri : string;
  resource_name : string;
  resource_description : string;
  mimeType : string
}.

Definition list_resources : list Resource :=
  [mkResource "jira://my-issues" "Mis Issues" "Issues asignados a mí"
     "application/json";
   mkResource "jira://projects" "Proyectos" "Lista de proyectos de Jira"
     "application/json";
   mkResource "jira://recent-issues" "Issues Recientes"
     "Issues actualizados recientemente" "application/json"].

Record Tool : Type := mkTool {
  tool_name : string;
  tool_description : string;
  inputSchema : json
}.

Definition property (type description : string) : json :=
  JObj [("type", JStr type); ("description", JStr description)].

Definition list_tools : list Tool :=
  [mkTool "search_issues" "Buscar issues con filtros o JQL"
     (JObj [("type", JStr "object");
            ("properties",
             JObj [("jql", property "string" "Consulta JQL (opcional)");
                   ("assignee",
                    property "string"
                      "Usuario asignado (opcional, usa 'me' para ti)");
                   ("project", property "string" "Clave del proyecto (opcional)");
                   ("max_results",
                    property "integer"
                      "Máximo número de resultados (default: 20)")])]);
   mkTool "get_issue" "Obtener detalles de un issue específico"
     (JObj [("type", JStr "object");
            ("properties",
             JObj [("issue_key",
                    property "string" "Clave del issue (ej: PROJ-123)")]);
            ("required", JArr [JStr "issue_key"])]);
   mkTool "create_issue" "Crear un nuevo issue"
     (JObj [("type", JStr "object");
            ("properties",
             JObj [("project_key", property "string" "Clave del proyecto");
                   ("summary", property "string" "Título del issue");
                   ("description", property "string" "Descripción del issue");
                   ("issue_type",
                    property "string" "Tipo de issue (Task, Bug, Story, etc.)")]);
            ("required",
             JArr [JStr "project_key"; JStr "summary"; JStr "description"])]);
   mkTool "transition_issue" "Cambiar estado de un issue"
     (JObj [("type", JStr "object");
            ("properties",
             JObj [("issue_key", property "string" "Clave del issue");
                   ("transition",
                    property "string" "Nuevo estado (In Progress, Done, etc.)")]);
            ("required", JArr [JStr "issue_key"; JStr "transition"])]);
   mkTool "get_my_issues" "Obtener todos mis issues asignados"
     (JObj [("type", JStr "object");
            ("properties",
             JObj [("status", property "string" "Filtrar por estado (opcional)")])])].


(** A stand-in for the base64 encoder, for evaluating [JiraManager_init]. *)
Definition sample_b64 (s : string) : string := "<" ++ s ++ ">".

Definition slashes (n : nat) : string := string_of_list_ascii (repeat "/"%char n).

(* ===================================================================== *)
(** ** Sample documents and backends *)

Definition sample_manager : JiraManager :=
  mkJiraManager "https://example.atlassian.net" [("Accept", "application/json")].

Definition sample_message (e : exn) : string := "request failed".

Definition sample_dumps (doc : json) (indent : nat) (ensure_ascii : bool) : string :=
  match doc with
  | JObj (("error", JStr msg) :: _) => "{ error: " ++ msg ++ " }"
  | _ => "[...]"
  end.

(** A backend that gives the same answer to every request. *)
Definition answer_all (r : response) : list request -> request -> netreply :=
  fun _ _ => Responded r.

(** A backend that serves reads with [r] and rejects every write. *)
Definition reject_writes (r : response) : list request -> request -> netreply :=
  fun _ req =>
    match meth req with
    | GET => Responded r
    | _ => Responded (mkResponse 400 None)
    end.

(** An issue whose description is a document with no paragraph. *)
Definition empty_doc_issue : json :=
  JObj [("key", JStr "ABC-1");
        ("fields",
         JObj [("summary", JStr "Empty description");
               ("description",
                JObj [("type", JStr "doc"); ("version", JNum 1);
                      ("content", JArr [])])])].

Definition null_assignee_issue : json :=
  JObj [("key", JStr "ABC-2");
        ("fields",
         JObj [("summary", JStr "Fix login");
               ("status", JObj [("name", JStr "Open")]);
               ("assignee", JNull);
               ("priority", JObj [("name", JStr "High")]);
               ("issuetype", JObj [("name", JStr "Bug")]);
               ("created", JStr "2024-01-01T10:00:00.000+0000");
               ("updated", JStr "2024-01-02T10:00:00.000+0000");
               ("description", JNull)])].

Definition bare_issue (k : string) : json :=
  JObj [("key", JStr k); ("fields", JObj [])].

Definition two_issues_page : json :=
  JObj [("issues", JArr [bare_issue "ABC-3"; bare_issue "ABC-4"])].

Definition transitions_page : json :=
  JObj [("transitions",
         JArr [JObj [("id", JStr "21"); ("name", JStr "In Progress")];
               JObj [("id", JStr "31"); ("name", JStr "Done")]])].

Definition blank_id_page : json :=
  JObj [("transitions", JArr [JObj [("id", JStr ""); ("name", JStr "Done")]])].

Definition ok (body : json) : response := mkResponse 200 (Some body).

(* ===================================================================== *)
(** ** Backend client and protocol dispatcher *)

Section Adapter.

(** The Jira server: its answer to a request, given the requests it has
    received before. *)
Variable backend : list request -> request -> netreply.

(** [str.lower], the lower-casing of the interpreter (all of Unicode). *)
Variable str_lower : string -> string.

(** [str(e)] for the exceptions raised by the interpreter and by httpx. *)
Variable exc_message : exn -> string.

(** [json.dumps(obj, indent=..., ensure_ascii=...)]. *)
Variable json_dumps : json -> nat -> bool -> string.

(** The module-level [jira_manager]. *)
Variable jira_manager : JiraManager.

#[local] Open Scope io_scope.

(** [await client.get(...)], [client.post(...)], [client.put(...)]. *)
Definition send (req : request) : io response :=
  fun log =>
    (log ++ [req],
     match backend log req with
     | Responded r => Return r
     | Unreachable => Raise RequestError
     end)%list.

(** [str(e)]: an exception built by the adapter carries its own message. *)
Definition py_str (e : exn) : string :=
  match e with
  | ValueError msg => msg
  | _ => exc_message e
  end.

Definition get_myself (self : JiraManager) : io json :=
  response <- send (mkRequest GET (jira_url self ++ "/rest/api/3/myself")
                      (headers self) [] None) ;;
  raise_for_status response ;;;
  response_json response.

Definition projects_request (self : JiraManager) : request :=
  mkRequest GET (jira_url self ++ "/rest/api/3/project") (headers self) [] None.

Definition get_projects (self : JiraManager) : io (list JiraProject) :=
  response <- send (projects_request self) ;;
  raise_for_status response ;;;
  projects_data <- response_json response ;;
  items <- lift (py_iter projects_data) ;;
  lift (traverse project_from_json items).

Definition search_request (self : JiraManager) (jql : string) (max_results : Z)
  : request :=
  mkRequest GET (jira_url self ++ "/rest/api/3/search") (headers self)
    [("jql", JStr jql); ("maxResults", JNum max_results);
     ("fields", JStr issue_fields)]
    None.

Definition search_issues (self : JiraManager)
    (jql assignee project : option string) (max_results : Z)
  : io (list JiraIssue) :=
  let jql := build_jql jql assignee project in
  response <- send (search_request self jql max_results) ;;
  raise_for_status response ;;;
  data <- response_json response ;;
  found <- lift (py_get data "issues" (JArr [])) ;;
  items <- lift (py_iter found) ;;
  lift (traverse issue_from_json items).

Definition issue_request (self : JiraManager) (issue_key : string) : request :=
  mkRequest GET (jira_url self ++ "/rest/api/3/issue/" ++ issue_key)
    (headers self) [("fields", JStr issue_fields)] None.

Definition get_issue (self : JiraManager) (issue_key : string)
  : io (option JiraIssue) :=
  response <- send (issue_request self issue_key) ;;
  raise_for_status response ;;;
  issue <- response_json response ;;
  i <- lift (issue_from_json issue) ;;
  ret (Some i).

Definition issue_data (project_key summary description issue_type : string) : json :=
  JObj [("fields",
         JObj [("project", JObj [("key", JStr project_key)]);
               ("summary", JStr summary);
               ("description",
                JObj [("type", JStr "doc");
                      ("version", JNum 1);
                      ("content",
                       JArr [JObj [("type", JStr "paragraph");
                                   ("content",
                                    JArr [JObj [("type", JStr "text");
                                                ("text", JStr description)]])]])]);
               ("issuetype", JObj [("name", JStr issue_type)])])].

Definition create_issue (self : JiraManager)
    (project_key summary description issue_type : string) : io json :=
  response <- send (mkRequest POST (jira_url self ++ "/rest/api/3/issue")
                      (headers self) []
                      (Some (issue_data project_key summary description issue_type))) ;;
  raise_for_status response ;;;
  response_json response.

Definition transitions_url (self : JiraManager) (issue_key : string) : string :=
  jira_url self ++ "/rest/api/3/issue/" ++ issue_key ++ "/transitions".

Definition transitions_request (self : JiraManager) (issue_key : string) : request :=
  mkRequest GET (transitions_url self issue_key) (headers self) [] None.

Definition transition_request (self : JiraManager) (issue_key : string)
    (transition_id : json) : request :=
  mkRequest POST (transitions_url self issue_key) (headers self) []
    (Some (JObj [("transition", JObj [("id", transition_id)])])).

Definition transition_issue (self : JiraManager)
    (issue_key transition_name : string) : io bool :=
  response <- send (transitions_request self issue_key) ;;
  raise_for_status response ;;;
  body <- response_json response ;;
  transitions <- lift (py_get body "transitions" (JArr [])) ;;
  items <- lift (py_iter transitions) ;;
  transition_id <- lift (find_transition str_lower items transition_name) ;;
  if negb (truthy transition_id)
  then ret false
  else
    response <- send (transition_request self issue_key transition_id) ;;
    raise_for_status response ;;;
    ret true.

Definition assign_request (self : JiraManager) (issue_key assignee : string)
  : request :=
  mkRequest PUT (jira_url self ++ "/rest/api/3/issue/" ++ issue_key ++ "/assignee")
    (headers self) []
    (Some (JObj [("accountId", if assignee =? "me" then JNull else JStr assignee)])).

Definition assign_issue (self : JiraManager) (issue_key assignee : string)
  : io bool :=
  response <- send (assign_request self issue_key assignee) ;;
  raise_for_status response ;;;
  ret true.

(** *** Resources *)

(** [read_resource(uri: str)]: the argument is a [str], as the signature
    declares, and is compared with the [str] literals of the three URIs. *)

Definition read_resource (uri : string) : io string :=
  try_except
    (if uri =? "jira://my-issues" then
       issues <- search_issues jira_manager None (Some "me") None 20 ;;
       ret (json_dumps
              (JArr (map (issue_row [("key", key); ("summary", summary);
                                     ("status", status); ("priority", priority);
                                     ("type", issue_type); ("updated", updated)])
                         issues))
              2 false)
     else if uri =? "jira://projects" then
       projects <- get_projects jira_manager ;;
       ret (json_dumps (JArr (map project_row projects)) 2 false)
     else if uri =? "jira://recent-issues" then
       issues <- search_issues jira_manager (Some "order by updated DESC")
                   None None 20 ;;
       ret (json_dumps
              (JArr (map (issue_row [("key", key); ("summary", summary);
                                     ("status", status); ("assignee", assignee);
                                     ("updated", updated)])
                         issues))
              2 false)
     else raise (ValueError ("Recurso no encontrado: " ++ uri)))
    (fun e => ret (json_dumps (JObj [("error", JStr (py_str e))]) 2 true)).

(** *** Tools *)

Definition call_tool (name : string) (arguments : arguments) : io reply :=
  let get := fun k => arg k (strings arguments) in
  try_except
    (if name =? "search_issues" then
       let max_results :=
         match max_results_arg arguments with Some n => n | None => 20%Z end in
       issues <- search_issues jira_manager (get "jql") (get "assignee")
                   (get "project") max_results ;;
       match issues with
       | [] => ret NoIssuesFound
       | _ => ret (IssuesFound issues)
       end
     else if name =? "get_issue" then
       match get "issue_key" with
       | Some (String _ _ as issue_key) =>
           issue <- get_issue jira_manager issue_key ;;
           match issue with
           | None => ret (IssueNotFound issue_key)
           | Some i => ret (IssueDetails i)
           end
       | _ => ret MissingIssueKey
       end
     else if name =? "create_issue" then
       let issue_type :=
         match get "issue_type" with Some t => t | None => "Task" end in
       match get "project_key", get "summary", get "description" with
       | Some (String _ _ as project_key), Some (String _ _ as summary),
         Some (String _ _ as description) =>
           result <- create_issue jira_manager project_key summary description
                       issue_type ;;
           issue_key <- lift (py_get result "key" JNull) ;;
           ret (IssueCreated issue_key summary)
       | _, _, _ => ret MissingCreateArgs
       end
     else if name =? "transition_issue" then
       match get "issue_key", get "transition" with
       | Some (String _ _ as issue_key), Some (String _ _ as transition) =>
           success <- transition_issue jira_manager issue_key transition ;;
           if success : bool
           then ret (TransitionDone issue_key transition)
           else ret (TransitionFailed issue_key transition)
       | _, _ => ret MissingTransitionArgs
       end
     else if name =? "get_my_issues" then
       let jql := "assignee = currentUser()" in
       let jql :=
         match get "status" with
         | Some (String _ _ as status_filter) =>
             jql ++ " AND status = '" ++ status_filter ++ "'"
         | _ => jql
         end in
       let jql := jql ++ " ORDER BY updated DESC" in
       issues <- search_issues jira_manager (Some jql) None None 30 ;;
       match issues with
       | [] => ret NoAssignedIssues
       | _ => ret (MyIssues issues)
       end
     else ret (UnknownTool name))
    (fun e => ret (ErrorReply e)).


Definition create_request (self : JiraManager)
    (project_key summary description issue_type : string) : request :=
  mkRequest POST (jira_url self ++ "/rest/api/3/issue") (headers self) []
    (Some (issue_data project_key summary description issue_type)).

(** The query that the [get_my_issues] tool sends. *)
Definition my_issues_jql (status_filter : option string) : string :=
  match status_filter with
  | Some (String c rest) =>
      "assignee = currentUser() AND status = '" ++ String c rest
      ++ "' ORDER BY updated DESC"
  | _ => "assignee = currentUser() ORDER BY updated DESC"
  end.

(** The lookup step of [transition_issue]: what the answer to the GET leads
    to before any POST. *)
Definition transition_lookup (n : netreply) (transition_name : string)
  : outcome json :=
  match n with
  | Responded r =>
      if is_success r
      then match content r with
           | Some body =>
               (transitions <- py_get body "transitions" (JArr []) ;;
                items <- py_iter transitions ;;
                find_transition str_lower items transition_name)%outcome
           | None => Raise JSONDecodeError
           end
      else Raise (HTTPStatusError (status_code r))
  | Unreachable => Raise RequestError
  end.

(** Further sample documents. *)
Definition mixed_page : json :=
  JObj [("issues", JArr [bare_issue "ABC-3"; empty_doc_issue; bare_issue "ABC-4"])].

Definition projects_page : json :=
  JArr [JObj [("key", JStr "ABC"); ("name", JStr "Alpha")];
        JObj [("key", JStr "XYZ"); ("name", JStr "Omega");
              ("projectTypeKey", JStr "software");
              ("lead", JObj [("displayName", JStr "Ana")])]].

Definition unreadable_page : json :=
  JObj [("transitions",
         JArr [JObj [("id", JStr "11")];
               JObj [("id", JStr "31"); ("name", JStr "Done")]])].

Definition rich_issue_fields : list (string * json) :=
  [("summary", JNull);
   ("assignee", JObj [("displayName", JStr "Ana")]);
   ("priority", JStr "High");
   ("description",
    JObj [("type", JStr "doc");
          ("content",
           JArr [JObj [("type", JStr "paragraph");
                       ("content",
                        JArr [JObj [("type", JStr "text"); ("text", JStr "First")];
                              JObj [("type", JStr "text"); ("text", JStr " run")]])];
                 JObj [("type", JStr "paragraph")]])])].

(** Unfolds the plumbing of [io] so that a run reduces to case analyses on
    the backend's answers. *)
Ltac run_io :=
  unfold bind, send, raise_for_status, response_json, lift, ret, raise.

(* ===================================================================== *)
(** ** Properties of the built-in operations *)




Lemma lower_idempotent (s : string) : lower (lower s) = lower s.
Proof.
  induction s as [|c s IH]; simpl; [reflexivity|].
  rewrite IH. f_equal.
  destruct c as [[] [] [] [] [] [] [] []]; reflexivity.
Qed.


Lemma py_get_present (members : list (string * json)) (k : string) (d v : json) :
  lookup k members = Some v -> py_get (JObj members) k d = Return v.
Proof. intro H. unfold py_get. now rewrite H. Qed.

Lemma py_get_absent (members : list (string * json)) (k : string) (d : json) :
  lookup k members = None -> py_get (JObj members) k d = Return d.
Proof. intro H. unfold py_get. now rewrite H. Qed.

Lemma traverse_length {A B : Type} (f : A -> outcome B) (l : list A) (ys : list B) :
  traverse f l = Return ys -> length ys = length l.
Proof.
  revert ys. induction l as [|x l IH]; simpl; intros ys H.
  - injection H as <-. reflexivity.
  - destruct (f x) as [y|e]; simpl in H; [|discriminate H].
    destruct (traverse f l) as [zs|e]; simpl in H; [|discriminate H].
    injection H as <-. simpl. f_equal. now apply IH.
Qed.

(* ===================================================================== *)
(** ** Query builder *)

(** C3. With assignee "me" and no raw query the builder yields
    [assignee = currentUser()]; with assignee "bob" and project "ABC" it
    yields [assignee = 'bob' AND project = 'ABC']; with no argument it yields
    [order by updated DESC]; a non-empty raw query is returned unchanged
    whatever the assignee and project arguments are. *)
Theorem build_jql_examples_and_passthrough :
  build_jql None (Some "me") None = "assignee = currentUser()" /\
  build_jql None (Some "bob") (Some "ABC") = "assignee = 'bob' AND project = 'ABC'" /\
  build_jql None None None = "order by updated DESC" /\
  (forall (jql : string) (assignee project : option string),
      jql <> "" -> build_jql (Some jql) assignee project = jql).
Proof.
  repeat split.
  intros jql assignee project Hjql.
  destruct jql as [|c rest]; [congruence | reflexivity].
Qed.



(* ===================================================================== *)
(** ** Response normaliser *)

Lemma field_description_absent (fields : list (string * json)) :
  lookup "description" fields = None \/ lookup "description" fields = Some JNull ->
  field_description (JObj fields) = Return (JStr "").
Proof.
  unfold field_description, py_get. intros [H | H]; rewrite H; reflexivity.
Qed.

Lemma truthy_object (members : list (string * json)) :
  members <> [] -> truthy (JObj members) = true.
Proof. destruct members; [congruence | reflexivity]. Qed.

Lemma field_description_no_paragraph (fields doc : list (string * json)) :
  lookup "description" fields = Some (JObj doc) ->
  lookup "content" doc = Some (JArr []) ->
  field_description (JObj fields) = Raise IndexError.
Proof.
  intros Hd Hc. unfold field_description.
  rewrite !(py_get_present _ _ _ _ Hd). cbn [obind].
  rewrite truthy_object by (intros ->; discriminate Hc).
  rewrite (py_get_present _ _ _ _ Hc). reflexivity.
Qed.

Lemma field_description_empty_paragraph
    (fields doc block : list (string * json)) (more : list json) :
  lookup "description" fields = Some (JObj doc) ->
  lookup "content" doc = Some (JArr (JObj block :: more)) ->
  lookup "content" block = Some (JArr []) ->
  field_description (JObj fields) = Raise IndexError.
Proof.
  intros Hd Hc Hb. unfold field_description.
  rewrite !(py_get_present _ _ _ _ Hd). cbn [obind].
  rewrite truthy_object by (intros ->; discriminate Hc).
  rewrite (py_get_present _ _ _ _ Hc). cbn [obind py_getitem0].
  rewrite (py_get_present _ _ _ _ Hb). reflexivity.
Qed.

Lemma field_status_null (fields : list (string * json)) :
  lookup "status" fields = Some JNull ->
  field_status (JObj fields) = Raise AttributeError.
Proof. intro H. unfold field_status, py_get. rewrite H. reflexivity. Qed.

(** C2 (as amended). The sentinels are the literals of the source: a null or
    absent assignee yields "Sin asignar", a null or absent priority yields
    "Sin prioridad", an absent summary yields "Sin título", a status or
    issue type that is absent or is an object without a name yields
    "Desconocido"; each of these extractions succeeds, and normalisation of an
    issue that has a key and a fields object succeeds whenever each of its
    field extractions does. *)
Theorem normalizer_sentinels (fields : list (string * json)) :
  (lookup "assignee" fields = None \/ lookup "assignee" fields = Some JNull ->
   field_assignee (JObj fields) = Return (JStr "Sin asignar")) /\
  (lookup "priority" fields = None \/ lookup "priority" fields = Some JNull ->
   field_priority (JObj fields) = Return (JStr "Sin prioridad")) /\
  (lookup "summary" fields = None ->
   field_summary (JObj fields) = Return (JStr "Sin título")) /\
  (forall st,
      lookup "status" fields = None \/
      (lookup "status" fields = Some (JObj st) /\ lookup "name" st = None) ->
      field_status (JObj fields) = Return (JStr "Desconocido")) /\
  (forall ty,
      lookup "issuetype" fields = None \/
      (lookup "issuetype" fields = Some (JObj ty) /\ lookup "name" ty = None) ->
      field_issue_type (JObj fields) = Return (JStr "Desconocido")) /\
  (forall raw k s st a p t c u d,
      lookup "fields" raw = Some (JObj fields) ->
      lookup "key" raw = Some k ->
      field_summary (JObj fields) = Return s ->
      field_status (JObj fields) = Return st ->
      field_assignee (JObj fields) = Return a ->
      field_priority (JObj fields) = Return p ->
      field_issue_type (JObj fields) = Return t ->
      field_created (JObj fields) = Return c ->
      field_updated (JObj fields) = Return u ->
      field_description (JObj fields) = Return d ->
      issue_from_json (JObj raw) = Return (mkJiraIssue k s st a p t c u d)).
Proof.
  repeat split.
  - unfold field_assignee, py_get. intros [H | H]; rewrite H; reflexivity.
  - unfold field_priority, py_get. intros [H | H]; rewrite H; reflexivity.
  - intro H. unfold field_summary. now apply py_get_absent.
  - intros st [H | [H Hn]]; unfold field_status.
    + rewrite (py_get_absent _ _ _ H). reflexivity.
    + rewrite (py_get_present _ _ _ _ H). simpl. now rewrite Hn.
  - intros ty [H | [H Hn]]; unfold field_issue_type.
    + rewrite (py_get_absent _ _ _ H). reflexivity.
    + rewrite (py_get_present _ _ _ _ H). simpl. now rewrite Hn.
  - intros raw k s st a p t c u d Hf Hk Hs Hst Ha Hp Ht Hc Hu Hd.
    unfold issue_from_json, py_getitem. rewrite Hf, Hk. cbn [obind].
    rewrite Hs, Hst, Ha, Hp, Ht, Hc, Hu, Hd. reflexivity.
Qed.

(* ===================================================================== *)
(** ** Backend client *)

Lemma find_transition_no_match (items : list json) (target : string) :
  Forall (fun t => exists n, py_getitem t "name" = Return (JStr n) /\
                             str_lower n <> str_lower target) items ->
  find_transition str_lower items target = Return JNull.
Proof.
  induction 1 as [|t items [n [Hn Hne]] _ IH]; simpl; [reflexivity|].
  rewrite Hn. simpl. apply String.eqb_neq in Hne. now rewrite Hne.
Qed.

Lemma find_transition_first_match
    (pre post : list json) (t : json) (target n : string) (tid : json) :
  Forall (fun t => exists n, py_getitem t "name" = Return (JStr n) /\
                             str_lower n <> str_lower target) pre ->
  py_getitem t "name" = Return (JStr n) ->
  str_lower n = str_lower target ->
  py_getitem t "id" = Return tid ->
  find_transition str_lower (pre ++ t :: post) target = Return tid.
Proof.
  intros Hpre Hn Heq Hid.
  induction Hpre as [|u pre [m [Hm Hne]] _ IH]; simpl.
  - rewrite Hn. simpl. apply String.eqb_eq in Heq. now rewrite Heq.
  - rewrite Hm. simpl. apply String.eqb_neq in Hne. now rewrite Hne.
Qed.

Lemma transition_issue_run (self : JiraManager) (issue_key target : string)
    (log : list request) (r : response) (body transitions : json)
    (items : list json) (tid : json) :
  backend log (transitions_request self issue_key) = Responded r ->
  is_success r = true ->
  content r = Some body ->
  py_get body "transitions" (JArr []) = Return transitions ->
  py_iter transitions = Return items ->
  find_transition str_lower items target = Return tid ->
  let log1 := (log ++ [transitions_request self issue_key])%list in
  let post := transition_request self issue_key tid in
  transition_issue self issue_key target log =
  if truthy tid
  then ((log1 ++ [post])%list,
        match backend log1 post with
        | Responded r2 =>
            if is_success r2 then Return true
            else Raise (HTTPStatusError (status_code r2))
        | Unreachable => Raise RequestError
        end)
  else (log1, Return false).
Proof.
  intros Hb Hs Hc Ht Hi Hf log1 post.
  unfold transition_issue. run_io.
  rewrite Hb, Hs, Hc, Ht, Hi, Hf.
  destruct (truthy tid); cbn [negb]; [|reflexivity].
  fold log1. fold post.
  destruct (backend log1 post) as [r2|]; [|reflexivity].
  destruct (is_success r2); reflexivity.
Qed.

(** C5 (as amended). The requested name is compared with each available
    transition's name after lower-casing both with [str.lower], so (as
    [str.lower] lowers the ASCII letters) "in progress" selects a
    transition named "In Progress".  When no transition matches, or the
    first match carries an empty id, the method returns false and the only
    request sent is the GET of the transitions.  When the first match carries
    a non-empty id, a POST carrying that id is sent next; the method returns
    true when the backend accepts the POST and raises the HTTP failure when
    it does not.  Whenever false is returned, no POST was sent. *)
Theorem transition_issue_resolution (self : JiraManager)
    (issue_key target : string) (log : list request) :
  let log1 := (log ++ [transitions_request self issue_key])%list in
  ((forall s, is_ascii s = true -> str_lower s = lower s) ->
   find_transition str_lower
     [JObj [("id", JStr "21"); ("name", JStr "In Progress")]] "in progress"
   = Return (JStr "21")) /\
  (forall r body transitions items,
      backend log (transitions_request self issue_key) = Responded r ->
      is_success r = true ->
      content r = Some body ->
      py_get body "transitions" (JArr []) = Return transitions ->
      py_iter transitions = Return items ->
      (Forall (fun t => exists n, py_getitem t "name" = Return (JStr n) /\
                                  str_lower n <> str_lower target) items ->
       transition_issue self issue_key target log = (log1, Return false)) /\
      (forall pre t post n tid,
          items = (pre ++ t :: post)%list ->
          Forall (fun t => exists n, py_getitem t "name" = Return (JStr n) /\
                                     str_lower n <> str_lower target) pre ->
          py_getitem t "name" = Return (JStr n) ->
          str_lower n = str_lower target ->
          py_getitem t "id" = Return tid ->
          (truthy tid = false ->
           transition_issue self issue_key target log = (log1, Return false)) /\
          (truthy tid = true ->
           let submit := transition_request self issue_key tid in
           payload submit = Some (JObj [("transition", JObj [("id", tid)])]) /\
           meth submit = POST /\
           transition_issue self issue_key target log =
           ((log1 ++ [submit])%list,
            match backend log1 submit with
            | Responded r2 =>
                if is_success r2 then Return true
                else Raise (HTTPStatusError (status_code r2))
            | Unreachable => Raise RequestError
            end)))) /\
  (forall log',
      transition_issue self issue_key target log = (log', Return false) ->
      log' = log1).
Proof.
  intro log1. split.
  { intro Hascii. cbn [find_transition py_getitem lookup String.eqb Ascii.eqb
                       Bool.eqb obind py_lower].
    rewrite !Hascii by reflexivity. reflexivity. }
  split.
  - intros r body transitions items Hb Hs Hc Ht Hi. split.
    + intro Hno. apply find_transition_no_match in Hno.
      rewrite (transition_issue_run _ _ _ _ _ _ _ _ _ Hb Hs Hc Ht Hi Hno).
      reflexivity.
    + intros pre t post n tid -> Hpre Hn Heq Hid.
      pose proof (find_transition_first_match pre post t target n tid
                    Hpre Hn Heq Hid) as Hf.
      pose proof (transition_issue_run _ _ _ _ _ _ _ _ _ Hb Hs Hc Ht Hi Hf) as Hrun.
      cbv zeta in Hrun. split.
      * intro Hfalsy. rewrite Hrun, Hfalsy. reflexivity.
      * intro Htruthy. rewrite Hrun, Htruthy. repeat split.
  - intros log'. unfold transition_issue. run_io. fold log1.
    destruct (backend log (transitions_request self issue_key)) as [r|];
      [|discriminate].
    destruct (is_success r); [|discriminate].
    destruct (content r) as [body|]; [|discriminate].
    destruct (py_get body "transitions" (JArr [])) as [transitions|];
      [|discriminate].
    destruct (py_iter transitions) as [items|]; [|discriminate].
    destruct (find_transition str_lower items target) as [tid|]; [|discriminate].
    destruct (truthy tid); cbn [negb].
    + destruct (backend log1 (transition_request self issue_key tid)) as [r2|];
        [|discriminate].
      destruct (is_success r2); discriminate.
    + intro H. now injection H as <-.
Qed.

(** C9. [assign_issue] sends one PUT whose body holds the given assignee as
    [accountId], and a null [accountId] when the assignee is exactly "me";
    when the backend answers with a success status the method returns true. *)
Theorem assign_issue_account_id (self : JiraManager)
    (issue_key who : string) (log : list request) :
  let put := assign_request self issue_key who in
  meth put = PUT /\
  (who = "me" -> payload put = Some (JObj [("accountId", JNull)])) /\
  (who <> "me" -> payload put = Some (JObj [("accountId", JStr who)])) /\
  fst (assign_issue self issue_key who log) = (log ++ [put])%list /\
  (forall r, backend log put = Responded r -> is_success r = true ->
             assign_issue self issue_key who log = ((log ++ [put])%list, Return true)).
Proof.
  intro put. repeat split.
  - intros ->. reflexivity.
  - intro H. apply String.eqb_neq in H. unfold put, assign_request.
    cbn [payload]. now rewrite H.
  - unfold assign_issue. run_io. fold put.
    destruct (backend log put) as [r|]; [|reflexivity].
    destruct (is_success r); reflexivity.
  - intros r Hb Hs. unfold assign_issue. run_io. fold put.
    rewrite Hb, Hs. reflexivity.
Qed.

(** C6 (as amended). [search_issues] asks the backend for a page of
    [max_results] and returns one Issue per element of the [issues] list of
    the response, in order and without truncation; the result is therefore no
    longer than [max_results] whenever the page the backend delivers is. *)
Theorem search_issues_length (self : JiraManager)
    (jql who project : option string) (max_results : Z) (log : list request)
    (r : response) (data : json) (raw : list json) :
  let get := search_request self (build_jql jql who project) max_results in
  backend log get = Responded r ->
  is_success r = true ->
  content r = Some data ->
  py_get data "issues" (JArr []) = Return (JArr raw) ->
  lookup "maxResults" (params get) = Some (JNum max_results) /\
  search_issues self jql who project max_results log =
    ((log ++ [get])%list, traverse issue_from_json raw) /\
  (forall issues,
      traverse issue_from_json raw = Return issues ->
      length issues = length raw /\
      ((Z.of_nat (length raw) <= max_results)%Z ->
       (Z.of_nat (length issues) <= max_results)%Z)).
Proof.
  intros get Hb Hs Hc Hi. split; [reflexivity|]. split.
  - unfold search_issues. run_io. fold get. rewrite Hb, Hs, Hc, Hi. reflexivity.
  - intros issues Ht. apply traverse_length in Ht. split; [exact Ht|].
    rewrite Ht. trivial.
Qed.

Lemma get_issue_run (self : JiraManager) (issue_key : string) (log : list request) :
  get_issue self issue_key log =
  ((log ++ [issue_request self issue_key])%list,
   match backend log (issue_request self issue_key) with
   | Responded r =>
       if is_success r
       then match content r with
            | Some body =>
                match issue_from_json body with
                | Return i => Return (Some i)
                | Raise e => Raise e
                end
            | None => Raise JSONDecodeError
            end
       else Raise (HTTPStatusError (status_code r))
   | Unreachable => Raise RequestError
   end).
Proof.
  unfold get_issue. run_io.
  destruct (backend log (issue_request self issue_key)) as [r|]; [|reflexivity].
  destruct (is_success r); [|reflexivity].
  destruct (content r) as [body|]; [|reflexivity].
  destruct (issue_from_json body); reflexivity.
Qed.

(* ===================================================================== *)
(** ** Protocol dispatcher *)

Lemma call_tool_get_issue_run (args : arguments) (log : list request) :
  call_tool "get_issue" args log =
  match arg "issue_key" (strings args) with
  | Some (String c rest) =>
      match get_issue jira_manager (String c rest) log with
      | (log', Return (Some i)) => (log', Return (IssueDetails i))
      | (log', Return None) => (log', Return (IssueNotFound (String c rest)))
      | (log', Raise e) => (log', Return (ErrorReply e))
      end
  | _ => (log, Return MissingIssueKey)
  end.
Proof.
  unfold call_tool, try_except. cbn [String.eqb Ascii.eqb Bool.eqb].
  destruct (arg "issue_key" (strings args)) as [[|c rest]|]; try reflexivity.
  unfold bind.
  destruct (get_issue jira_manager (String c rest) log) as [log' [[i|]|e]];
    reflexivity.
Qed.

(** C10 (as amended). [get_issue] never returns the not-found outcome.
    When the backend answers with a success status and a body that
    normalises, it returns that Issue record; when the body does not
    normalise it raises the normaliser's exception; when the body is not
    JSON it raises [JSONDecodeError]; when the call fails it raises that
    failure.  Whenever it returns, the value is the Issue record that the
    body of a success response normalises to.  Hence the "issue not found"
    reply of the dispatcher is never produced. *)
Theorem get_issue_never_none (self : JiraManager) (issue_key : string)
    (log : list request) :
  (forall log', get_issue self issue_key log <> (log', Return None)) /\
  (forall r body i,
      backend log (issue_request self issue_key) = Responded r ->
      is_success r = true ->
      content r = Some body ->
      issue_from_json body = Return i ->
      get_issue self issue_key log =
        ((log ++ [issue_request self issue_key])%list, Return (Some i))) /\
  (forall r body e,
      backend log (issue_request self issue_key) = Responded r ->
      is_success r = true ->
      content r = Some body ->
      issue_from_json body = Raise e ->
      get_issue self issue_key log =
        ((log ++ [issue_request self issue_key])%list, Raise e)) /\
  (forall r,
      backend log (issue_request self issue_key) = Responded r ->
      is_success r = true ->
      content r = None ->
      get_issue self issue_key log =
        ((log ++ [issue_request self issue_key])%list, Raise JSONDecodeError)) /\
  (forall e,
      failure (backend log (issue_request self issue_key)) = Some e ->
      get_issue self issue_key log =
        ((log ++ [issue_request self issue_key])%list, Raise e)) /\
  (forall v log',
      get_issue self issue_key log = (log', Return v) ->
      exists r body i,
        backend log (issue_request self issue_key) = Responded r /\
        is_success r = true /\
        content r = Some body /\
        issue_from_json body = Return i /\
        v = Some i /\
        log' = (log ++ [issue_request self issue_key])%list) /\
  (forall args log' k,
      call_tool "get_issue" args log <> (log', Return (IssueNotFound k))).
Proof.
  repeat split.
  - intros log'. rewrite get_issue_run.
    destruct (backend log (issue_request self issue_key)) as [r|]; [|discriminate].
    destruct (is_success r); [|discriminate].
    destruct (content r) as [body|]; [|discriminate].
    destruct (issue_from_json body); discriminate.
  - intros r body i Hb Hs Hc Hi. rewrite get_issue_run, Hb, Hs, Hc, Hi.
    reflexivity.
  - intros r body e Hb Hs Hc Hi. rewrite get_issue_run, Hb, Hs, Hc, Hi.
    reflexivity.
  - intros r Hb Hs Hc. rewrite get_issue_run, Hb, Hs, Hc. reflexivity.
  - intros e H. rewrite get_issue_run. unfold failure in H.
    destruct (backend log (issue_request self issue_key)) as [r|].
    + destruct (is_success r); [discriminate H | now injection H as <-].
    + now injection H as <-.
  - intros v log'. rewrite get_issue_run.
    destruct (backend log (issue_request self issue_key)) as [r|] eqn:Hb;
      [|discriminate].
    destruct (is_success r) eqn:Hs; [|discriminate].
    destruct (content r) as [body|] eqn:Hc; [|discriminate].
    destruct (issue_from_json body) as [i|] eqn:Hi; [|discriminate].
    intro H. injection H as <- <-. exists r, body, i. auto 7.
  - intros args log' k. rewrite call_tool_get_issue_run.
    destruct (arg "issue_key" (strings args)) as [[|c rest]|]; try discriminate.
    rewrite get_issue_run.
    destruct (backend log (issue_request jira_manager (String c rest))) as [r|];
      [|discriminate].
    destruct (is_success r); [|discriminate].
    destruct (content r) as [body|]; [|discriminate].
    destruct (issue_from_json body); discriminate.
Qed.

Lemma try_except_returns {A : Type} (m : io A) (handler : exn -> io A)
    (log : list request) :
  (forall e l, exists l' a, handler e l = (l', Return a)) ->
  exists log' a, try_except m handler log = (log', Return a).
Proof.
  intro Hh. unfold try_except.
  destruct (m log) as [l [a|e]]; [now exists l, a | apply Hh].
Qed.

Lemma search_issues_refused (self : JiraManager)
    (jql who project : option string) (max_results : Z) (log : list request)
    (e : exn) :
  let get := search_request self (build_jql jql who project) max_results in
  failure (backend log get) = Some e ->
  search_issues self jql who project max_results log = ((log ++ [get])%list, Raise e).
Proof.
  intros get H. unfold search_issues. run_io. fold get.
  unfold failure in H. destruct (backend log get) as [r|].
  - destruct (is_success r); [discriminate H | now injection H as <-].
  - now injection H as <-.
Qed.

Lemma get_projects_refused (self : JiraManager) (log : list request) (e : exn) :
  failure (backend log (projects_request self)) = Some e ->
  get_projects self log = ((log ++ [projects_request self])%list, Raise e).
Proof.
  intro H. unfold get_projects. run_io.
  unfold failure in H. destruct (backend log (projects_request self)) as [r|].
  - destruct (is_success r); [discriminate H | now injection H as <-].
  - now injection H as <-.
Qed.

(** C7. For every URI other than the three resource URIs, [read_resource]
    returns the serialisation of an object with an [error] member and sends
    no request; for every URI it returns a string and raises nothing; and
    when the backend call made for one of the three resources fails, it
    returns the serialisation of an object with an [error] member. *)
Theorem read_resource_errors_are_data (uri : string) (log : list request) :
  (exists log' text, read_resource uri log = (log', Return text)) /\
  (uri <> "jira://my-issues" -> uri <> "jira://projects" ->
   uri <> "jira://recent-issues" ->
   read_resource uri log =
     (log,
      Return (json_dumps
                (JObj [("error", JStr ("Recurso no encontrado: " ++ uri))])
                2 true))) /\
  (forall req e,
      (uri = "jira://my-issues" /\
       req = search_request jira_manager "assignee = currentUser()" 20) \/
      (uri = "jira://projects" /\ req = projects_request jira_manager) \/
      (uri = "jira://recent-issues" /\
       req = search_request jira_manager "order by updated DESC" 20) ->
      failure (backend log req) = Some e ->
      read_resource uri log =
        ((log ++ [req])%list,
         Return (json_dumps (JObj [("error", JStr (py_str e))]) 2 true))).
Proof.
  repeat split.
  - unfold read_resource. apply try_except_returns.
    intros e l. now eexists _, _.
  - intros H1 H2 H3. unfold read_resource, try_except.
    apply String.eqb_neq in H1, H2, H3. rewrite H1, H2, H3. reflexivity.
  - intros req e [[-> ->] | [[-> ->] | [-> ->]]] Hf;
      unfold read_resource, try_except; cbn [String.eqb Ascii.eqb Bool.eqb];
      unfold bind.
    + rewrite (search_issues_refused jira_manager None (Some "me") None 20 log e Hf).
      reflexivity.
    + rewrite (get_projects_refused jira_manager log e Hf). reflexivity.
    + rewrite (search_issues_refused jira_manager (Some "order by updated DESC")
                 None None 20 log e Hf).
      reflexivity.
Qed.

(** C8. A [create_issue] call that lacks [project_key], [summary] or
    [description], a [get_issue] call that lacks [issue_key] and a
    [transition_issue] call that lacks [issue_key] or [transition] are each
    answered with the tool's error text, and no request is sent. *)
Theorem missing_arguments_rejected (args : arguments) (log : list request) :
  (arg "project_key" (strings args) = None \/
   arg "summary" (strings args) = None \/
   arg "description" (strings args) = None ->
   call_tool "create_issue" args log = (log, Return MissingCreateArgs)) /\
  (arg "issue_key" (strings args) = None ->
   call_tool "get_issue" args log = (log, Return MissingIssueKey)) /\
  (arg "issue_key" (strings args) = None \/
   arg "transition" (strings args) = None ->
   call_tool "transition_issue" args log = (log, Return MissingTransitionArgs)) /\
  reply_text MissingCreateArgs =
    Some "❌ Error: Se requieren project_key, summary y description" /\
  reply_text MissingIssueKey = Some "❌ Error: Se requiere issue_key" /\
  reply_text MissingTransitionArgs =
    Some "❌ Error: Se requieren issue_key y transition".
Proof.
  repeat split.
  - intro H. unfold call_tool, try_except. cbn [String.eqb Ascii.eqb Bool.eqb].
    destruct (arg "project_key" (strings args)) as [[|c1 s1]|];
      destruct (arg "summary" (strings args)) as [[|c2 s2]|];
      destruct (arg "description" (strings args)) as [[|c3 s3]|];
      try reflexivity.
    destruct H as [H | [H | H]]; discriminate H.
  - intro H. rewrite call_tool_get_issue_run, H. reflexivity.
  - intro H. unfold call_tool, try_except. cbn [String.eqb Ascii.eqb Bool.eqb].
    destruct (arg "issue_key" (strings args)) as [[|c1 s1]|];
      destruct (arg "transition" (strings args)) as [[|c2 s2]|];
      try reflexivity.
    destruct H as [H | H]; discriminate H.
Qed.

(* ===================================================================== *)
(** ** Further properties: query builder *)

Lemma assignee_condition_shape (a : string) :
  exists c rest, assignee_condition a = String c rest.
Proof.
  unfold assignee_condition. destruct (lower a =? "me"); simpl; eauto.
Qed.

(** X1. Whatever the arguments, the query built for a search is never the
    empty string. *)
Theorem build_jql_nonempty (jql who project : option string) :
  build_jql jql who project <> "".
Proof.
  unfold build_jql. destruct jql as [[|c rest]|]; try discriminate;
    unfold conditions;
    destruct who as [[|c1 a]|]; destruct project as [[|c2 p]|];
    cbn [given app String.concat]; try discriminate;
    destruct (assignee_condition_shape (String c1 a)) as [x [y ->]];
    discriminate.
Qed.

(** X2. An empty-string argument behaves as an absent one: an empty raw
    query lets the filters decide, and an empty assignee or project adds no
    condition. *)
Theorem build_jql_empty_as_absent (jql who project : option string) :
  build_jql (Some "") who project = build_jql None who project /\
  build_jql jql (Some "") project = build_jql jql None project /\
  build_jql jql who (Some "") = build_jql jql who None.
Proof.
  repeat split; unfold build_jql, conditions;
    destruct jql as [[|c rest]|]; try reflexivity;
    destruct who as [[|c1 a]|]; reflexivity.
Qed.

(* ===================================================================== *)
(** ** Further properties: response normaliser *)

(** X3. The defaults apply to absent keys only: a summary, creation or
    update value that is present is stored as it is, null included, and a
    status or issue type that is present but null makes the extraction raise
    [AttributeError]. *)
Theorem present_values_pass_through (fields : list (string * json)) (v : json) :
  (lookup "summary" fields = Some v -> field_summary (JObj fields) = Return v) /\
  (lookup "created" fields = Some v -> field_created (JObj fields) = Return v) /\
  (lookup "updated" fields = Some v -> field_updated (JObj fields) = Return v) /\
  (lookup "status" fields = Some JNull ->
   field_status (JObj fields) = Raise AttributeError) /\
  (lookup "issuetype" fields = Some JNull ->
   field_issue_type (JObj fields) = Raise AttributeError).
Proof.
  repeat split; intro H.
  - unfold field_summary. now apply py_get_present.
  - unfold field_created. now apply py_get_present.
  - unfold field_updated. now apply py_get_present.
  - unfold field_status. now rewrite (py_get_present _ _ _ _ H).
  - unfold field_issue_type. now rewrite (py_get_present _ _ _ _ H).
Qed.

Lemma py_get_non_object (v : json) (k : string) (d : json) :
  (forall m, v <> JObj m) -> py_get v k d = Raise AttributeError.
Proof. intro H. destruct v; try reflexivity. now elim (H members). Qed.

(** X4. The assignee of an issue: any false value (null, an empty object,
    an empty string, zero, false, an empty list) yields "Sin asignar"; a
    non-empty object yields its [displayName], or "Sin asignar" when it has
    none; any other true value makes the extraction raise [AttributeError].
    The priority follows the same pattern with [name] and "Sin prioridad". *)
Theorem assignee_and_priority_cases (fields : list (string * json)) (v : json) :
  (lookup "assignee" fields = Some v ->
   (truthy v = false ->
    field_assignee (JObj fields) = Return (JStr "Sin asignar")) /\
   (forall m, v = JObj m -> m <> [] ->
    field_assignee (JObj fields) =
      Return (match lookup "displayName" m with
              | Some d => d
              | None => JStr "Sin asignar"
              end)) /\
   (truthy v = true -> (forall m, v <> JObj m) ->
    field_assignee (JObj fields) = Raise AttributeError)) /\
  (lookup "priority" fields = Some v ->
   (truthy v = false ->
    field_priority (JObj fields) = Return (JStr "Sin prioridad")) /\
   (forall m, v = JObj m -> m <> [] ->
    field_priority (JObj fields) =
      Return (match lookup "name" m with
              | Some d => d
              | None => JStr "Sin prioridad"
              end)) /\
   (truthy v = true -> (forall m, v <> JObj m) ->
    field_priority (JObj fields) = Raise AttributeError)).
Proof.
  split; intro H; repeat split.
  - intro Hf. unfold field_assignee.
    rewrite (py_get_present _ _ _ _ H). cbn [obind]. now rewrite Hf.
  - intros m -> Hm. unfold field_assignee.
    rewrite !(py_get_present _ _ _ _ H). cbn [obind].
    rewrite (truthy_object m Hm). reflexivity.
  - intros Ht Hno. unfold field_assignee.
    rewrite !(py_get_present _ _ _ _ H). cbn [obind]. rewrite Ht.
    now apply py_get_non_object.
  - intro Hf. unfold field_priority.
    rewrite (py_get_present _ _ _ _ H). cbn [obind]. now rewrite Hf.
  - intros m -> Hm. unfold field_priority.
    rewrite !(py_get_present _ _ _ _ H). cbn [obind].
    rewrite (truthy_object m Hm). reflexivity.
  - intros Ht Hno. unfold field_priority.
    rewrite !(py_get_present _ _ _ _ H). cbn [obind]. rewrite Ht.
    now apply py_get_non_object.
Qed.

(** X5. Of a description document only the first run of the first
    paragraph is read: the result is that run's [text], or the empty string
    when the run has none; later runs and paragraphs are not consulted. *)
Theorem description_is_first_run
    (fields doc block run : list (string * json)) (paragraphs runs : list json) :
  lookup "description" fields = Some (JObj doc) ->
  lookup "content" doc = Some (JArr (JObj block :: paragraphs)) ->
  lookup "content" block = Some (JArr (JObj run :: runs)) ->
  field_description (JObj fields) =
    Return (match lookup "text" run with Some t => t | None => JStr "" end).
Proof.
  intros Hd Hc Hb. unfold field_description.
  rewrite !(py_get_present _ _ _ _ Hd). cbn [obind].
  rewrite truthy_object by (intros ->; discriminate Hc).
  rewrite (py_get_present _ _ _ _ Hc). cbn [obind py_getitem0].
  rewrite (py_get_present _ _ _ _ Hb). reflexivity.
Qed.

(** X6. A description document that lacks the [content] key, or whose first
    paragraph lacks it, yields the empty string; a description that is a
    non-empty string instead of a document makes the extraction raise
    [AttributeError]. *)
Theorem description_shallow_cases (fields : list (string * json)) :
  (forall doc,
      lookup "description" fields = Some (JObj doc) -> doc <> [] ->
      lookup "content" doc = None ->
      field_description (JObj fields) = Return (JStr "")) /\
  (forall doc block paragraphs,
      lookup "description" fields = Some (JObj doc) ->
      lookup "content" doc = Some (JArr (JObj block :: paragraphs)) ->
      lookup "content" block = None ->
      field_description (JObj fields) = Return (JStr "")) /\
  (forall c rest,
      lookup "description" fields = Some (JStr (String c rest)) ->
      field_description (JObj fields) = Raise AttributeError).
Proof.
  repeat split.
  - intros doc Hd Hne Hc. unfold field_description.
    rewrite !(py_get_present _ _ _ _ Hd). cbn [obind].
    rewrite (truthy_object doc Hne).
    rewrite (py_get_absent _ _ _ Hc). reflexivity.
  - intros doc block paragraphs Hd Hc Hb. unfold field_description.
    rewrite !(py_get_present _ _ _ _ Hd). cbn [obind].
    rewrite truthy_object by (intros ->; discriminate Hc).
    rewrite (py_get_present _ _ _ _ Hc). cbn [obind py_getitem0].
    rewrite (py_get_absent _ _ _ Hb). reflexivity.
  - intros c rest Hd. unfold field_description.
    rewrite !(py_get_present _ _ _ _ Hd). reflexivity.
Qed.

(** X7. Round trip with [create_issue]: normalising an issue whose fields
    are the ones [create_issue] submits gives back the submitted summary,
    description text and issue type, for every description, the empty one
    included; the fields it does not submit take their sentinels. *)
Theorem create_then_normalize
    (project_key summary description issue_type : string) (k : json) :
  exists fields,
    py_getitem (issue_data project_key summary description issue_type) "fields"
    = Return fields /\
    issue_from_json (JObj [("key", k); ("fields", fields)]) =
      Return (mkJiraIssue k (JStr summary) (JStr "Desconocido")
                (JStr "Sin asignar") (JStr "Sin prioridad") (JStr issue_type)
                (JStr "") (JStr "") (JStr description)).
Proof. eexists. split; reflexivity. Qed.


(** X9. A project without a key or without a name makes the normaliser
    raise [KeyError], and a project whose lead is null makes it raise
    [AttributeError]: the lead has no null guard. *)
Theorem project_failures (members : list (string * json)) :
  (lookup "key" members = None ->
   project_from_json (JObj members) = Raise (KeyError (JStr "key"))) /\
  (forall k, lookup "key" members = Some k -> lookup "name" members = None ->
   project_from_json (JObj members) = Raise (KeyError (JStr "name"))) /\
  (forall k n, lookup "key" members = Some k -> lookup "name" members = Some n ->
   lookup "lead" members = Some JNull ->
   project_from_json (JObj members) = Raise AttributeError).
Proof.
  unfold project_from_json, py_getitem, py_get. repeat split.
  - intro Hk. now rewrite Hk.
  - intros k Hk Hn. now rewrite Hk, Hn.
  - intros k n Hk Hn Hl. now rewrite Hk, Hn, Hl.
Qed.

Lemma traverse_Forall2 {A B : Type} (f : A -> outcome B) (l : list A) (ys : list B) :
  traverse f l = Return ys -> Forall2 (fun x y => f x = Return y) l ys.
Proof.
  revert ys. induction l as [|x l IH]; simpl; intros ys H.
  - injection H as <-. constructor.
  - destruct (f x) as [y|e] eqn:Hx; simpl in H; [|discriminate H].
    destruct (traverse f l) as [zs|e]; simpl in H; [|discriminate H].
    injection H as <-. constructor; [exact Hx | now apply IH].
Qed.

Lemma traverse_first_failure {A B : Type} (f : A -> outcome B)
    (pre post : list A) (x : A) (e : exn) :
  Forall (fun y => exists b, f y = Return b) pre ->
  f x = Raise e ->
  traverse f (pre ++ x :: post)%list = Raise e.
Proof.
  intros Hpre Hx. induction Hpre as [|y pre [b Hb] _ IH]; simpl.
  - now rewrite Hx.
  - rewrite Hb. simpl. now rewrite IH.
Qed.

(* ===================================================================== *)
(** ** Further properties: construction of the manager *)

Lemma rstrip_slashes (ch : ascii) (n : nat) :
  rstrip ch (string_of_list_ascii (repeat ch n)) = "".
Proof.
  induction n as [|n IH]; simpl; [reflexivity|].
  rewrite IH. now rewrite Ascii.eqb_refl.
Qed.

Lemma append_nonempty (s : string) (c : ascii) (t : string) :
  exists c' t', s ++ String c t = String c' t'.
Proof. destruct s; simpl; eauto. Qed.

Lemma rstrip_append (ch : ascii) (s t : string) :
  rstrip ch (s ++ t) =
  match rstrip ch t with
  | "" => rstrip ch s
  | String c kept => s ++ String c kept
  end.
Proof.
  induction s as [|a s IH]; simpl.
  - destruct (rstrip ch t); reflexivity.
  - rewrite IH. destruct (rstrip ch t) as [|c kept]; [reflexivity|].
    destruct (append_nonempty s c kept) as [c' [t' ->]]. reflexivity.
Qed.

Lemma rstrip_decompose (ch : ascii) (s : string) :
  exists n, s = rstrip ch s ++ string_of_list_ascii (repeat ch n).
Proof.
  induction s as [|a s [n IH]]; simpl.
  - now exists 0%nat.
  - destruct (rstrip ch s) as [|c kept] eqn:Hr.
    + destruct (Ascii.eqb_spec a ch) as [-> | Hne].
      * exists (S n). simpl. now rewrite IH at 1.
      * exists n. simpl. now rewrite IH at 1.
    + exists n. simpl. f_equal. exact IH.
Qed.

Lemma rstrip_length (ch : ascii) (s : string) :
  (String.length (rstrip ch s) <= String.length s)%nat.
Proof.
  induction s as [|a s IH]; simpl; [lia|].
  destruct (rstrip ch s) as [|c kept].
  - destruct (Ascii.eqb a ch); simpl; lia.
  - simpl in *. lia.
Qed.

Lemma length_append (s t : string) :
  String.length (s ++ t) = (String.length s + String.length t)%nat.
Proof. induction s as [|a s IH]; simpl; [reflexivity | now rewrite IH]. Qed.

(** X10. [rstrip] removes exactly the trailing occurrences of the
    character: the text is the result followed by some number of them, the
    result does not end with the character, and stripping again changes
    nothing. *)
Theorem rstrip_removes_trailing (ch : ascii) (s : string) :
  (exists n, s = rstrip ch s ++ string_of_list_ascii (repeat ch n)) /\
  (forall r, rstrip ch s <> r ++ String ch "") /\
  rstrip ch (rstrip ch s) = rstrip ch s.
Proof.
  assert (Hidem : rstrip ch (rstrip ch s) = rstrip ch s).
  { destruct (rstrip_decompose ch s) as [n Hn].
    rewrite Hn at 2. rewrite rstrip_append, rstrip_slashes. reflexivity. }
  split; [apply rstrip_decompose|]. split; [|exact Hidem].
  intros r Hr.
  assert (Hs : rstrip ch (r ++ String ch "") = rstrip ch r).
  { rewrite rstrip_append. simpl. now rewrite Ascii.eqb_refl. }
  rewrite <- Hr, Hidem in Hs.
  pose proof (rstrip_length ch r) as Hlen.
  rewrite <- Hs, Hr, length_append in Hlen. simpl in Hlen. lia.
Qed.

Lemma is_ascii_append (s t : string) :
  is_ascii (s ++ t) = is_ascii s && is_ascii t.
Proof.
  unfold is_ascii. induction s as [|a s IH]; simpl; [reflexivity|].
  rewrite IH. now rewrite andb_assoc.
Qed.

Lemma is_ascii_credentials (email api_token : string) :
  is_ascii (email ++ ":" ++ api_token) = is_ascii email && is_ascii api_token.
Proof. rewrite !is_ascii_append. reflexivity. Qed.

(** X11. Constructing the manager fails with [UnicodeEncodeError] exactly
    when the e-mail or the API token holds a character outside ASCII; the
    URL takes no part in it. *)
Theorem init_fails_iff_not_ascii (b64encode : string -> string)
    (base email api_token : string) :
  JiraManager_init b64encode base email api_token = UnicodeEncodeError <->
  is_ascii email = false \/ is_ascii api_token = false.
Proof.
  unfold JiraManager_init. rewrite is_ascii_credentials.
  destruct (is_ascii email), (is_ascii api_token); simpl; split;
    intro H; try discriminate H; try reflexivity; auto;
    destruct H as [H | H]; discriminate H.
Qed.

(** X12. Trailing slashes of the configured URL never reach a request: for
    a base that does not end in a slash, constructing the manager from the
    base followed by any number of slashes gives the manager of the base
    itself, whose requests go to the base followed by the REST path and
    carry the Basic authorization header built from "email:token". *)
Theorem init_normalises_base_url (b64encode : string -> string)
    (base email api_token : string) (n : nat) :
  rstrip "/" base = base ->
  is_ascii email = true ->
  is_ascii api_token = true ->
  exists self,
    JiraManager_init b64encode (base ++ slashes n) email api_token
    = Constructed self /\
    JiraManager_init b64encode base email api_token = Constructed self /\
    jira_url self = base /\
    (forall k, url (issue_request self k) = base ++ "/rest/api/3/issue/" ++ k) /\
    (forall k,
        req_headers (issue_request self k) =
          [("Authorization", "Basic " ++ b64encode (email ++ ":" ++ api_token));
           ("Accept", "application/json");
           ("Content-Type", "application/json")]).
Proof.
  intros Hbase He Ht. unfold JiraManager_init.
  rewrite is_ascii_credentials, He, Ht. cbn [andb].
  unfold slashes. rewrite rstrip_append, rstrip_slashes, Hbase.
  eexists. repeat split.
Qed.

(* ===================================================================== *)
(** ** Further properties: backend client *)

Lemma get_myself_run (self : JiraManager) (log : list request) :
  get_myself self log =
  ((log ++ [myself_request self])%list,
   match backend log (myself_request self) with
   | Responded r =>
       if is_success r
       then match content r with
            | Some body => Return body
            | None => Raise JSONDecodeError
            end
       else Raise (HTTPStatusError (status_code r))
   | Unreachable => Raise RequestError
   end).
Proof.
  unfold get_myself. run_io. fold (myself_request self).
  destruct (backend log (myself_request self)) as [r|]; [|reflexivity].
  destruct (is_success r); [|reflexivity].
  destruct (content r); reflexivity.
Qed.

Lemma get_projects_run (self : JiraManager) (log : list request) :
  get_projects self log =
  ((log ++ [projects_request self])%list,
   match backend log (projects_request self) with
   | Responded r =>
       if is_success r
       then match content r with
            | Some data =>
                (items <- py_iter data ;;
                 traverse project_from_json items)%outcome
            | None => Raise JSONDecodeError
            end
       else Raise (HTTPStatusError (status_code r))
   | Unreachable => Raise RequestError
   end).
Proof.
  unfold get_projects. run_io.
  destruct (backend log (projects_request self)) as [r|]; [|reflexivity].
  destruct (is_success r); [|reflexivity].
  destruct (content r) as [data|]; [|reflexivity].
  destruct (py_iter data); reflexivity.
Qed.

Lemma search_issues_run (self : JiraManager)
    (jql who project : option string) (max_results : Z) (log : list request) :
  let get := search_request self (build_jql jql who project) max_results in
  search_issues self jql who project max_results log =
  ((log ++ [get])%list,
   match backend log get with
   | Responded r =>
       if is_success r
       then match content r with
            | Some data =>
                (found <- py_get data "issues" (JArr []) ;;
                 items <- py_iter found ;;
                 traverse issue_from_json items)%outcome
            | None => Raise JSONDecodeError
            end
       else Raise (HTTPStatusError (status_code r))
   | Unreachable => Raise RequestError
   end).
Proof.
  intro get. unfold search_issues. run_io. fold get.
  destruct (backend log get) as [r|]; [|reflexivity].
  destruct (is_success r); [|reflexivity].
  destruct (content r) as [data|]; [|reflexivity].
  destruct (py_get data "issues" (JArr [])) as [found|]; [|reflexivity].
  cbn [obind]. destruct (py_iter found); reflexivity.
Qed.

Lemma create_issue_run (self : JiraManager)
    (project_key summary description issue_type : string) (log : list request) :
  let post := create_request self project_key summary description issue_type in
  create_issue self project_key summary description issue_type log =
  ((log ++ [post])%list,
   match backend log post with
   | Responded r =>
       if is_success r
       then match content r with
            | Some body => Return body
            | None => Raise JSONDecodeError
            end
       else Raise (HTTPStatusError (status_code r))
   | Unreachable => Raise RequestError
   end).
Proof.
  intro post. unfold create_issue. run_io.
  fold (create_request self project_key summary description issue_type).
  fold post.
  destruct (backend log post) as [r|]; [|reflexivity].
  destruct (is_success r); [|reflexivity].
  destruct (content r); reflexivity.
Qed.

Lemma assign_issue_run (self : JiraManager) (issue_key who : string)
    (log : list request) :
  let put := assign_request self issue_key who in
  assign_issue self issue_key who log =
  ((log ++ [put])%list,
   match backend log put with
   | Responded r =>
       if is_success r then Return true
       else Raise (HTTPStatusError (status_code r))
   | Unreachable => Raise RequestError
   end).
Proof.
  intro put. unfold assign_issue. run_io. fold put.
  destruct (backend log put) as [r|]; [|reflexivity].
  destruct (is_success r); reflexivity.
Qed.

Lemma transition_issue_full (self : JiraManager) (issue_key target : string)
    (log : list request) :
  let get := transitions_request self issue_key in
  let log1 := (log ++ [get])%list in
  transition_issue self issue_key target log =
  match transition_lookup (backend log get) target with
  | Raise e => (log1, Raise e)
  | Return tid =>
      if truthy tid
      then ((log1 ++ [transition_request self issue_key tid])%list,
            match backend log1 (transition_request self issue_key tid) with
            | Responded r2 =>
                if is_success r2 then Return true
                else Raise (HTTPStatusError (status_code r2))
            | Unreachable => Raise RequestError
            end)
      else (log1, Return false)
  end.
Proof.
  intros get log1. unfold transition_issue, transition_lookup. run_io.
  fold get. fold log1.
  destruct (backend log get) as [r|]; [|reflexivity].
  destruct (is_success r); [|reflexivity].
  destruct (content r) as [body|]; [|reflexivity].
  destruct (py_get body "transitions" (JArr [])) as [transitions|]; [|reflexivity].
  cbn [obind]. destruct (py_iter transitions) as [items|]; [|reflexivity].
  cbn [obind]. destruct (find_transition str_lower items target) as [tid|]; [|reflexivity].
  destruct (truthy tid); cbn [negb]; [|reflexivity].
  destruct (backend log1 (transition_request self issue_key tid)) as [r2|];
    [|reflexivity].
  destruct (is_success r2); reflexivity.
Qed.

(** X13. Every operation of the client sends exactly one request, whether
    it then succeeds or fails, except [transition_issue], which sends the GET
    of the transitions and at most one POST after it. *)
Theorem one_request_per_operation (self : JiraManager) (log : list request) :
  fst (get_myself self log) = (log ++ [myself_request self])%list /\
  fst (get_projects self log) = (log ++ [projects_request self])%list /\
  (forall jql who project max_results,
      fst (search_issues self jql who project max_results log) =
      (log ++ [search_request self (build_jql jql who project) max_results])%list) /\
  (forall k, fst (get_issue self k log) = (log ++ [issue_request self k])%list) /\
  (forall pk s d t,
      fst (create_issue self pk s d t log) =
      (log ++ [create_request self pk s d t])%list) /\
  (forall k who,
      fst (assign_issue self k who log) = (log ++ [assign_request self k who])%list) /\
  (forall k target,
      fst (transition_issue self k target log) =
        (log ++ [transitions_request self k])%list \/
      exists tid,
        truthy tid = true /\
        fst (transition_issue self k target log) =
          (log ++ [transitions_request self k;
                   transition_request self k tid])%list).
Proof.
  repeat split.
  - now rewrite get_myself_run.
  - now rewrite get_projects_run.
  - intros. now rewrite search_issues_run.
  - intros. now rewrite get_issue_run.
  - intros. now rewrite create_issue_run.
  - intros. now rewrite assign_issue_run.
  - intros k target. rewrite transition_issue_full.
    destruct (transition_lookup (backend log (transitions_request self k)) target)
      as [tid|e]; [|now left].
    destruct (truthy tid) eqn:Ht; [|now left].
    right. exists tid. split; [exact Ht|]. cbn [fst].
    now rewrite <- app_assoc.
Qed.

Lemma failure_reply (n : netreply) (e : exn) :
  failure n = Some e ->
  match n with
  | Responded r => is_success r = false /\ e = HTTPStatusError (status_code r)
  | Unreachable => e = RequestError
  end.
Proof.
  unfold failure. destruct n as [r|].
  - destruct (is_success r); [discriminate|]. intro H. now injection H as <-.
  - intro H. now injection H as <-.
Qed.

(** X14. A call that the backend does not answer, or answers with a status
    outside 200-299, makes the operation raise at once ([RequestError], or
    [HTTPStatusError] with that status): no second attempt is made and the
    body is not read. *)
Theorem failures_propagate (self : JiraManager) (log : list request) (e : exn) :
  (failure (backend log (myself_request self)) = Some e ->
   get_myself self log = ((log ++ [myself_request self])%list, Raise e)) /\
  (failure (backend log (projects_request self)) = Some e ->
   get_projects self log = ((log ++ [projects_request self])%list, Raise e)) /\
  (forall jql who project max_results,
      let get := search_request self (build_jql jql who project) max_results in
      failure (backend log get) = Some e ->
      search_issues self jql who project max_results log =
        ((log ++ [get])%list, Raise e)) /\
  (forall k,
      failure (backend log (issue_request self k)) = Some e ->
      get_issue self k log = ((log ++ [issue_request self k])%list, Raise e)) /\
  (forall pk s d t,
      failure (backend log (create_request self pk s d t)) = Some e ->
      create_issue self pk s d t log =
        ((log ++ [create_request self pk s d t])%list, Raise e)) /\
  (forall k who,
      failure (backend log (assign_request self k who)) = Some e ->
      assign_issue self k who log =
        ((log ++ [assign_request self k who])%list, Raise e)) /\
  (forall k target,
      failure (backend log (transitions_request self k)) = Some e ->
      transition_issue self k target log =
        ((log ++ [transitions_request self k])%list, Raise e)).
Proof.
  repeat split.
  - intro H. apply failure_reply in H. rewrite get_myself_run.
    destruct (backend log (myself_request self)) as [r|];
      [destruct H as [-> ->] | subst]; reflexivity.
  - intro H. apply failure_reply in H. rewrite get_projects_run.
    destruct (backend log (projects_request self)) as [r|];
      [destruct H as [-> ->] | subst]; reflexivity.
  - intros jql who project max_results get H. apply failure_reply in H.
    rewrite search_issues_run. fold get.
    destruct (backend log get) as [r|];
      [destruct H as [-> ->] | subst]; reflexivity.
  - intros k H. apply failure_reply in H. rewrite get_issue_run.
    destruct (backend log (issue_request self k)) as [r|];
      [destruct H as [-> ->] | subst]; reflexivity.
  - intros pk s d t H. apply failure_reply in H. rewrite create_issue_run.
    destruct (backend log (create_request self pk s d t)) as [r|];
      [destruct H as [-> ->] | subst]; reflexivity.
  - intros k who H. apply failure_reply in H. rewrite assign_issue_run.
    destruct (backend log (assign_request self k who)) as [r|];
      [destruct H as [-> ->] | subst]; reflexivity.
  - intros k target H. apply failure_reply in H. rewrite transition_issue_full.
    unfold transition_lookup.
    destruct (backend log (transitions_request self k)) as [r|];
      [destruct H as [-> ->] | subst]; reflexivity.
Qed.

(** X15. Whenever [search_issues] returns, the backend answered the one
    request with a success status, and the Issues returned are, element by
    element and in the order of the response, the normalisations of the
    elements of its [issues] member. *)
Theorem search_issues_backend_order (self : JiraManager)
    (jql who project : option string) (max_results : Z)
    (log log' : list request) (issues : list JiraIssue) :
  search_issues self jql who project max_results log = (log', Return issues) ->
  exists r data found items,
    backend log (search_request self (build_jql jql who project) max_results)
    = Responded r /\
    is_success r = true /\
    content r = Some data /\
    py_get data "issues" (JArr []) = Return found /\
    py_iter found = Return items /\
    Forall2 (fun raw i => issue_from_json raw = Return i) items issues.
Proof.
  rewrite search_issues_run. cbv zeta.
  destruct (backend log _) as [r|] eqn:Hb; [|discriminate].
  destruct (is_success r) eqn:Hs; [|discriminate].
  destruct (content r) as [data|] eqn:Hc; [|discriminate].
  destruct (py_get data "issues" (JArr [])) as [found|] eqn:Hf; [|discriminate].
  cbn [obind]. destruct (py_iter found) as [items|] eqn:Hi; [|discriminate].
  cbn [obind]. intro H. injection H as _ H.
  exists r, data, found, items. repeat split; auto.
  now apply traverse_Forall2.
Qed.

(** X16. A search is all or nothing: when one element of the response fails
    to normalise, the search raises the exception of the first such element
    and returns no Issue, however many elements around it are well formed. *)
Theorem search_issues_all_or_nothing (self : JiraManager)
    (jql who project : option string) (max_results : Z) (log : list request)
    (r : response) (data : json) (pre post : list json) (x : json) (e : exn) :
  let get := search_request self (build_jql jql who project) max_results in
  backend log get = Responded r ->
  is_success r = true ->
  content r = Some data ->
  py_get data "issues" (JArr []) = Return (JArr (pre ++ x :: post)%list) ->
  Forall (fun y => exists i, issue_from_json y = Return i) pre ->
  issue_from_json x = Raise e ->
  search_issues self jql who project max_results log =
    ((log ++ [get])%list, Raise e).
Proof.
  intros get Hb Hs Hc Hf Hpre Hx. rewrite search_issues_run. fold get.
  rewrite Hb, Hs, Hc, Hf. cbn [obind py_iter].
  now rewrite (traverse_first_failure _ _ _ _ _ Hpre Hx).
Qed.

(** X17. Whenever [get_projects] returns, the Projects returned are, element
    by element and in the order of the response, the normalisations of the
    elements of the response body; a null body makes it raise [TypeError]. *)
Theorem get_projects_backend_order (self : JiraManager) (log : list request) :
  (forall log' projects,
      get_projects self log = (log', Return projects) ->
      exists r data items,
        backend log (projects_request self) = Responded r /\
        is_success r = true /\
        content r = Some data /\
        py_iter data = Return items /\
        Forall2 (fun raw p => project_from_json raw = Return p) items projects) /\
  (forall r,
      backend log (projects_request self) = Responded r ->
      is_success r = true ->
      content r = Some JNull ->
      get_projects self log =
        ((log ++ [projects_request self])%list, Raise TypeError)).
Proof.
  split.
  - intros log' projects. rewrite get_projects_run.
    destruct (backend log _) as [r|] eqn:Hb; [|discriminate].
    destruct (is_success r) eqn:Hs; [|discriminate].
    destruct (content r) as [data|] eqn:Hc; [|discriminate].
    destruct (py_iter data) as [items|] eqn:Hi; [|discriminate].
    cbn [obind]. intro H. injection H as _ H.
    exists r, data, items. repeat split; auto.
    now apply traverse_Forall2.
  - intros r Hb Hs Hc. rewrite get_projects_run, Hb, Hs, Hc. reflexivity.
Qed.

Lemma find_transition_lower (items : list json) (n1 n2 : string) :
  str_lower n1 = str_lower n2 -> find_transition str_lower items n1 = find_transition str_lower items n2.
Proof.
  intro H. induction items as [|t items IH]; simpl; [reflexivity|].
  rewrite H, IH. reflexivity.
Qed.

(** X18. The outcome of [transition_issue] depends on the requested name
    only through its lower-cased form under [str.lower]: two requests whose
    names have the same lower-cased form send the same requests and end the
    same way. *)
Theorem transition_issue_ignores_case (self : JiraManager)
    (issue_key n1 n2 : string) (log : list request) :
  str_lower n1 = str_lower n2 ->
  transition_issue self issue_key n1 log = transition_issue self issue_key n2 log.
Proof.
  intro H. rewrite !transition_issue_full. unfold transition_lookup.
  destruct (backend log (transitions_request self issue_key)) as [r|];
    [|reflexivity].
  destruct (is_success r); [|reflexivity].
  destruct (content r) as [body|]; [|reflexivity].
  destruct (py_get body "transitions" (JArr [])) as [transitions|]; [|reflexivity].
  cbn [obind]. destruct (py_iter transitions) as [items|]; [|reflexivity].
  cbn [obind]. now rewrite (find_transition_lower items n1 n2 H).
Qed.

Lemma find_transition_aborts (pre post : list json) (t : json)
    (target : string) (e : exn) :
  Forall (fun t => exists n, py_getitem t "name" = Return (JStr n) /\
                             str_lower n <> str_lower target) pre ->
  obind (py_getitem t "name") (py_lower str_lower) = Raise e ->
  find_transition str_lower (pre ++ t :: post)%list target = Raise e.
Proof.
  intros Hpre Ht. induction Hpre as [|u pre [m [Hm Hne]] _ IH]; simpl.
  - destruct (py_getitem t "name") as [v|e']; simpl in *.
    + now rewrite Ht.
    + now injection Ht as ->.
  - rewrite Hm. simpl. apply String.eqb_neq in Hne. now rewrite Hne.
Qed.

(** X19. The lookup of a transition stops at the first entry it cannot
    read: when the entries before it do not match (their lower-cased names
    under [str.lower] differ from the lower-cased request) and that entry
    has no [name], or a [name] that is not a string, [transition_issue] raises
    ([KeyError], [AttributeError]) without sending the POST, even if a later
    entry matches. *)
Theorem transition_lookup_aborts_on_unreadable_entry (self : JiraManager)
    (issue_key target : string) (log : list request) (r : response)
    (body : json) (pre post : list json) (t : json) (e : exn) :
  backend log (transitions_request self issue_key) = Responded r ->
  is_success r = true ->
  content r = Some body ->
  py_get body "transitions" (JArr []) = Return (JArr (pre ++ t :: post)%list) ->
  Forall (fun t => exists n, py_getitem t "name" = Return (JStr n) /\
                             str_lower n <> str_lower target) pre ->
  obind (py_getitem t "name") (py_lower str_lower) = Raise e ->
  transition_issue self issue_key target log =
    ((log ++ [transitions_request self issue_key])%list, Raise e).
Proof.
  intros Hb Hs Hc Ht Hpre He. rewrite transition_issue_full.
  unfold transition_lookup. rewrite Hb, Hs, Hc, Ht. cbn [obind py_iter].
  now rewrite (find_transition_aborts _ _ _ _ _ Hpre He).
Qed.

(* ===================================================================== *)
(** ** Further properties: protocol dispatcher *)

Lemma call_tool_search_run (args : arguments) (log : list request) :
  call_tool "search_issues" args log =
  match search_issues jira_manager (arg "jql" (strings args))
          (arg "assignee" (strings args)) (arg "project" (strings args))
          (match max_results_arg args with Some n => n | None => 20%Z end) log
  with
  | (l, Return []) => (l, Return NoIssuesFound)
  | (l, Return (i :: rest)) => (l, Return (IssuesFound (i :: rest)))
  | (l, Raise e) => (l, Return (ErrorReply e))
  end.
Proof.
  unfold call_tool, try_except. cbn [String.eqb Ascii.eqb Bool.eqb].
  unfold bind.
  destruct (search_issues _ _ _ _ _ log) as [l [[|i rest]|e]]; reflexivity.
Qed.

Lemma append_associative (s t u : string) : s ++ (t ++ u) = (s ++ t) ++ u.
Proof. induction s as [|a s IH]; simpl; [reflexivity | now rewrite IH]. Qed.

Lemma my_issues_jql_source (status_filter : option string) :
  (match status_filter with
   | Some (String c rest) =>
       "assignee = currentUser()" ++ " AND status = '" ++ String c rest ++ "'"
   | _ => "assignee = currentUser()"
   end) ++ " ORDER BY updated DESC"
  = my_issues_jql status_filter.
Proof.
  destruct status_filter as [[|c rest]|]; try reflexivity.
  unfold my_issues_jql.
  rewrite <- !append_associative. reflexivity.
Qed.

Lemma call_tool_my_issues_run (args : arguments) (log : list request) :
  call_tool "get_my_issues" args log =
  match search_issues jira_manager
          (Some (my_issues_jql (arg "status" (strings args)))) None None 30 log
  with
  | (l, Return []) => (l, Return NoAssignedIssues)
  | (l, Return (i :: rest)) => (l, Return (MyIssues (i :: rest)))
  | (l, Raise e) => (l, Return (ErrorReply e))
  end.
Proof.
  rewrite <- my_issues_jql_source.
  unfold call_tool, try_except. cbn [String.eqb Ascii.eqb Bool.eqb].
  unfold bind.
  destruct (arg "status" (strings args)) as [[|c rest]|];
    destruct (search_issues _ _ _ _ _ log) as [l [[|i more]|e]]; reflexivity.
Qed.

Lemma call_tool_create_run (args : arguments) (log : list request) :
  call_tool "create_issue" args log =
  match arg "project_key" (strings args), arg "summary" (strings args),
        arg "description" (strings args) with
  | Some (String c1 s1), Some (String c2 s2), Some (String c3 s3) =>
      match create_issue jira_manager (String c1 s1) (String c2 s2) (String c3 s3)
              (match arg "issue_type" (strings args) with
               | Some t => t
               | None => "Task"
               end) log
      with
      | (l, Return result) =>
          match py_get result "key" JNull with
          | Return k => (l, Return (IssueCreated k (String c2 s2)))
          | Raise e => (l, Return (ErrorReply e))
          end
      | (l, Raise e) => (l, Return (ErrorReply e))
      end
  | _, _, _ => (log, Return MissingCreateArgs)
  end.
Proof.
  unfold call_tool, try_except. cbn [String.eqb Ascii.eqb Bool.eqb].
  destruct (arg "project_key" (strings args)) as [[|c1 s1]|];
    destruct (arg "summary" (strings args)) as [[|c2 s2]|];
    destruct (arg "description" (strings args)) as [[|c3 s3]|];
    try reflexivity.
  unfold bind, lift, ret.
  destruct (create_issue _ _ _ _ _ log) as [l [result|e]]; [|reflexivity].
  destruct (py_get result "key" JNull); reflexivity.
Qed.

Lemma call_tool_transition_run (args : arguments) (log : list request) :
  call_tool "transition_issue" args log =
  match arg "issue_key" (strings args), arg "transition" (strings args) with
  | Some (String c1 s1), Some (String c2 s2) =>
      match transition_issue jira_manager (String c1 s1) (String c2 s2) log with
      | (l, Return true) => (l, Return (TransitionDone (String c1 s1) (String c2 s2)))
      | (l, Return false) =>
          (l, Return (TransitionFailed (String c1 s1) (String c2 s2)))
      | (l, Raise e) => (l, Return (ErrorReply e))
      end
  | _, _ => (log, Return MissingTransitionArgs)
  end.
Proof.
  unfold call_tool, try_except. cbn [String.eqb Ascii.eqb Bool.eqb].
  destruct (arg "issue_key" (strings args)) as [[|c1 s1]|];
    destruct (arg "transition" (strings args)) as [[|c2 s2]|];
    try reflexivity.
  unfold bind.
  destruct (transition_issue _ _ _ log) as [l [[|]|e]]; reflexivity.
Qed.

Lemma call_tool_unknown (name : string) (args : arguments) (log : list request) :
  name <> "search_issues" -> name <> "get_issue" -> name <> "create_issue" ->
  name <> "transition_issue" -> name <> "get_my_issues" ->
  call_tool name args log = (log, Return (UnknownTool name)).
Proof.
  intros H1 H2 H3 H4 H5. unfold call_tool, try_except.
  apply String.eqb_neq in H1, H2, H3, H4, H5.
  rewrite H1, H2, H3, H4, H5. reflexivity.
Qed.

(** X20. [call_tool] raises nothing: for every tool name, every argument
    set and every behaviour of the backend it ends with a reply. *)
Theorem call_tool_never_raises (name : string) (args : arguments)
    (log : list request) :
  exists log' r, call_tool name args log = (log', Return r).
Proof.
  unfold call_tool. apply try_except_returns.
  intros e l. now eexists _, _.
Qed.

(** X21. A tool name is answered with the "unknown tool" reply, without any
    request, exactly when [list_tools] does not declare it: every declared
    tool is dispatched. *)
Theorem unknown_tool_iff_undeclared (name : string) (args : arguments)
    (log : list request) :
  (~ In name (map tool_name list_tools) ->
   call_tool name args log = (log, Return (UnknownTool name))) /\
  (In name (map tool_name list_tools) ->
   forall log' n, call_tool name args log <> (log', Return (UnknownTool n))).
Proof.
  split.
  - intro H. apply call_tool_unknown; intros ->; apply H; simpl; auto 6.
  - intros H log' n. simpl in H.
    destruct H as [<- | [<- | [<- | [<- | [<- | []]]]]].
    + rewrite call_tool_search_run.
      destruct (search_issues _ _ _ _ _ log) as [l [[|i rest]|e]]; discriminate.
    + rewrite call_tool_get_issue_run.
      destruct (arg "issue_key" (strings args)) as [[|c rest]|]; try discriminate.
      destruct (get_issue _ _ log) as [l [[i|]|e]]; discriminate.
    + rewrite call_tool_create_run.
      destruct (arg "project_key" (strings args)) as [[|c1 s1]|];
        destruct (arg "summary" (strings args)) as [[|c2 s2]|];
        destruct (arg "description" (strings args)) as [[|c3 s3]|];
        try discriminate.
      destruct (create_issue _ _ _ _ _ log) as [l [result|e]]; [|discriminate].
      destruct (py_get result "key" JNull); discriminate.
    + rewrite call_tool_transition_run.
      destruct (arg "issue_key" (strings args)) as [[|c1 s1]|];
        destruct (arg "transition" (strings args)) as [[|c2 s2]|];
        try discriminate.
      destruct (transition_issue _ _ _ log) as [l [[|]|e]]; discriminate.
    + rewrite call_tool_my_issues_run.
      destruct (search_issues _ _ _ _ _ log) as [l [[|i rest]|e]]; discriminate.
Qed.


Lemma try_bind_ret_fst {A B : Type} (m : io A) (f : A -> B) (h : exn -> B)
    (log : list request) :
  fst (try_except (x <- m ;; ret (f x)) (fun e => ret (h e)) log) = fst (m log).
Proof.
  unfold try_except, bind, ret. destruct (m log) as [l [a|e]]; reflexivity.
Qed.

(** X23. Called with a [str] argument, as its signature declares,
    [read_resource] is read-only and matches the declaration: for a URI that
    [list_resources] declares it sends exactly one request, a GET without
    body, and for any other it sends none. *)
Theorem listed_resources_are_served (uri : string) (log : list request) :
  (In uri (map resource_uri list_resources) ->
   exists req,
     meth req = GET /\ payload req = None /\
     fst (read_resource uri log) = (log ++ [req])%list) /\
  (~ In uri (map resource_uri list_resources) ->
   fst (read_resource uri log) = log).
Proof.
  split.
  - intro H. simpl in H. destruct H as [<- | [<- | [<- | []]]];
      unfold read_resource; cbn [String.eqb Ascii.eqb Bool.eqb];
      rewrite try_bind_ret_fst.
    + rewrite search_issues_run.
      exists (search_request jira_manager "assignee = currentUser()" 20).
      repeat split.
    + rewrite get_projects_run.
      exists (projects_request jira_manager). repeat split.
    + rewrite search_issues_run.
      exists (search_request jira_manager "order by updated DESC" 20).
      repeat split.
  - intro H.
    assert (H1 : uri <> "jira://my-issues") by (intros ->; apply H; simpl; auto).
    assert (H2 : uri <> "jira://projects") by (intros ->; apply H; simpl; auto).
    assert (H3 : uri <> "jira://recent-issues")
      by (intros ->; apply H; simpl; auto).
    apply String.eqb_neq in H1, H2, H3.
    unfold read_resource, try_except. rewrite H1, H2, H3. reflexivity.
Qed.

Lemma search_issues_fst (self : JiraManager) (jql who project : option string)
    (max_results : Z) (log : list request) :
  fst (search_issues self jql who project max_results log) =
  (log ++ [search_request self (build_jql jql who project) max_results])%list.
Proof. now rewrite search_issues_run. Qed.

Lemma call_tool_search_fst (args : arguments) (log : list request) :
  fst (call_tool "search_issues" args log) =
  (log ++ [search_request jira_manager
             (build_jql (arg "jql" (strings args)) (arg "assignee" (strings args))
                (arg "project" (strings args)))
             (match max_results_arg args with Some n => n | None => 20%Z end)])%list.
Proof.
  rewrite call_tool_search_run, <- search_issues_fst.
  destruct (search_issues _ _ _ _ _ log) as [l [[|i rest]|e]]; reflexivity.
Qed.

Lemma call_tool_my_issues_fst (args : arguments) (log : list request) :
  fst (call_tool "get_my_issues" args log) =
  (log ++ [search_request jira_manager
             (my_issues_jql (arg "status" (strings args))) 30])%list.
Proof.
  rewrite call_tool_my_issues_run.
  pose proof (search_issues_fst jira_manager
                (Some (my_issues_jql (arg "status" (strings args))))
                None None 30 log) as H.
  assert (Hq : build_jql (Some (my_issues_jql (arg "status" (strings args))))
                 None None = my_issues_jql (arg "status" (strings args))).
  { destruct (arg "status" (strings args)) as [[|c rest]|]; reflexivity. }
  rewrite Hq in H. rewrite <- H.
  destruct (search_issues _ _ _ _ _ log) as [l [[|i rest]|e]]; reflexivity.
Qed.

(** X24. The two search tools always query the backend, once: the
    [search_issues] tool sends the query built from its arguments with the
    given page size, or 20 when none is given; the [get_my_issues] tool
    sends, with page size 30, the current-user query ordered by update time,
    into which a non-empty status is inserted between quotes as it is. *)
Theorem search_tools_queries (args : arguments) (log : list request) :
  fst (call_tool "search_issues" args log) =
    (log ++ [search_request jira_manager
               (build_jql (arg "jql" (strings args))
                  (arg "assignee" (strings args)) (arg "project" (strings args)))
               (match max_results_arg args with Some n => n | None => 20%Z end)])%list /\
  (given (arg "status" (strings args)) = false ->
   fst (call_tool "get_my_issues" args log) =
     (log ++ [search_request jira_manager
                "assignee = currentUser() ORDER BY updated DESC" 30])%list) /\
  (forall s,
      arg "status" (strings args) = Some s -> s <> "" ->
      fst (call_tool "get_my_issues" args log) =
        (log ++ [search_request jira_manager
                   ("assignee = currentUser() AND status = '" ++ s
                    ++ "' ORDER BY updated DESC") 30])%list).
Proof.
  split; [apply call_tool_search_fst|]. split.
  - intro Hg. rewrite call_tool_my_issues_fst.
    destruct (arg "status" (strings args)) as [[|c rest]|];
      [reflexivity | discriminate Hg | reflexivity].
  - intros s Hs Hne. rewrite call_tool_my_issues_fst, Hs.
    destruct s as [|c rest]; [congruence | reflexivity].
Qed.

Lemma get_issue_refused (self : JiraManager) (k : string) (log : list request)
    (e : exn) :
  failure (backend log (issue_request self k)) = Some e ->
  get_issue self k log = ((log ++ [issue_request self k])%list, Raise e).
Proof.
  intro H. apply failure_reply in H. rewrite get_issue_run.
  destruct (backend log (issue_request self k)) as [r|];
    [destruct H as [-> ->] | subst]; reflexivity.
Qed.

Lemma create_issue_refused (self : JiraManager) (pk s d t : string)
    (log : list request) (e : exn) :
  failure (backend log (create_request self pk s d t)) = Some e ->
  create_issue self pk s d t log =
    ((log ++ [create_request self pk s d t])%list, Raise e).
Proof.
  intro H. apply failure_reply in H. rewrite create_issue_run.
  destruct (backend log (create_request self pk s d t)) as [r|];
    [destruct H as [-> ->] | subst]; reflexivity.
Qed.

Lemma transition_issue_refused (self : JiraManager) (k target : string)
    (log : list request) (e : exn) :
  failure (backend log (transitions_request self k)) = Some e ->
  transition_issue self k target log =
    ((log ++ [transitions_request self k])%list, Raise e).
Proof.
  intro H. apply failure_reply in H. rewrite transition_issue_full.
  unfold transition_lookup.
  destruct (backend log (transitions_request self k)) as [r|];
    [destruct H as [-> ->] | subst]; reflexivity.
Qed.

(** X25. When the backend call of a tool fails (no answer, or a status
    outside 200-299), the tool's reply is the error reply carrying that
    failure, after the single request that failed; for [transition_issue]
    this is the GET, so nothing was changed. *)
Theorem tool_failures_become_replies (args : arguments) (log : list request)
    (e : exn) :
  (let get := search_request jira_manager
                (build_jql (arg "jql" (strings args))
                   (arg "assignee" (strings args)) (arg "project" (strings args)))
                (match max_results_arg args with Some n => n | None => 20%Z end) in
   failure (backend log get) = Some e ->
   call_tool "search_issues" args log = ((log ++ [get])%list, Return (ErrorReply e))) /\
  (forall k,
      arg "issue_key" (strings args) = Some k -> k <> "" ->
      failure (backend log (issue_request jira_manager k)) = Some e ->
      call_tool "get_issue" args log =
        ((log ++ [issue_request jira_manager k])%list, Return (ErrorReply e))) /\
  (forall pk s d,
      arg "project_key" (strings args) = Some pk -> pk <> "" ->
      arg "summary" (strings args) = Some s -> s <> "" ->
      arg "description" (strings args) = Some d -> d <> "" ->
      let post := create_request jira_manager pk s d
                    (match arg "issue_type" (strings args) with
                     | Some t => t
                     | None => "Task"
                     end) in
      failure (backend log post) = Some e ->
      call_tool "create_issue" args log =
        ((log ++ [post])%list, Return (ErrorReply e))) /\
  (forall k t,
      arg "issue_key" (strings args) = Some k -> k <> "" ->
      arg "transition" (strings args) = Some t -> t <> "" ->
      failure (backend log (transitions_request jira_manager k)) = Some e ->
      call_tool "transition_issue" args log =
        ((log ++ [transitions_request jira_manager k])%list,
         Return (ErrorReply e))) /\
  (let get := search_request jira_manager
                (my_issues_jql (arg "status" (strings args))) 30 in
   failure (backend log get) = Some e ->
   call_tool "get_my_issues" args log =
     ((log ++ [get])%list, Return (ErrorReply e))).
Proof.
  repeat split.
  - intros get H. rewrite call_tool_search_run.
    now rewrite (search_issues_refused _ _ _ _ _ _ _ H).
  - intros k Hk Hne H. rewrite call_tool_get_issue_run, Hk.
    destruct k as [|c rest]; [congruence|].
    now rewrite (get_issue_refused _ _ _ _ H).
  - intros pk s d Hpk Hpk' Hs Hs' Hd Hd' post H.
    rewrite call_tool_create_run, Hpk, Hs, Hd.
    destruct pk as [|c1 s1]; [congruence|].
    destruct s as [|c2 s2]; [congruence|].
    destruct d as [|c3 s3]; [congruence|].
    now rewrite (create_issue_refused _ _ _ _ _ _ _ H).
  - intros k t Hk Hk' Ht Ht' H. rewrite call_tool_transition_run, Hk, Ht.
    destruct k as [|c1 s1]; [congruence|].
    destruct t as [|c2 s2]; [congruence|].
    now rewrite (transition_issue_refused _ _ _ _ _ H).
  - intros get H. rewrite call_tool_my_issues_run.
    assert (Hq : build_jql (Some (my_issues_jql (arg "status" (strings args))))
                   None None = my_issues_jql (arg "status" (strings args))).
    { destruct (arg "status" (strings args)) as [[|c rest]|]; reflexivity. }
    pose proof (search_issues_refused jira_manager
                  (Some (my_issues_jql (arg "status" (strings args))))
                  None None 30 log e) as Hr.
    cbv zeta in Hr. rewrite Hq in Hr. now rewrite (Hr H).
Qed.

Lemma call_tool_get_issue_fst (args : arguments) (log : list request) :
  fst (call_tool "get_issue" args log) =
  match arg "issue_key" (strings args) with
  | Some (String c rest) =>
      (log ++ [issue_request jira_manager (String c rest)])%list
  | _ => log
  end.
Proof.
  rewrite call_tool_get_issue_run.
  destruct (arg "issue_key" (strings args)) as [[|c rest]|]; try reflexivity.
  rewrite get_issue_run.
  destruct (backend log _) as [r|]; [|reflexivity].
  destruct (is_success r); [|reflexivity].
  destruct (content r) as [body|]; [|reflexivity].
  destruct (issue_from_json body); reflexivity.
Qed.

Lemma call_tool_create_fst (args : arguments) (log : list request) :
  fst (call_tool "create_issue" args log) = log \/
  exists pk s d t,
    fst (call_tool "create_issue" args log) =
    (log ++ [create_request jira_manager pk s d t])%list.
Proof.
  rewrite call_tool_create_run.
  destruct (arg "project_key" (strings args)) as [[|c1 s1]|];
    destruct (arg "summary" (strings args)) as [[|c2 s2]|];
    destruct (arg "description" (strings args)) as [[|c3 s3]|];
    try (now left).
  right. eexists _, _, _, _. rewrite create_issue_run. cbv zeta.
  destruct (backend log _) as [r|]; [|reflexivity].
  destruct (is_success r); [|reflexivity].
  destruct (content r) as [body|]; [|reflexivity].
  destruct (py_get body "key" JNull); reflexivity.
Qed.

Lemma call_tool_transition_fst (args : arguments) (log : list request) :
  fst (call_tool "transition_issue" args log) = log \/
  exists k,
    fst (call_tool "transition_issue" args log) =
      (log ++ [transitions_request jira_manager k])%list \/
    exists tid,
      fst (call_tool "transition_issue" args log) =
        (log ++ [transitions_request jira_manager k;
                 transition_request jira_manager k tid])%list.
Proof.
  rewrite call_tool_transition_run.
  destruct (arg "issue_key" (strings args)) as [[|c1 s1]|];
    destruct (arg "transition" (strings args)) as [[|c2 s2]|];
    try (now left).
  right. exists (String c1 s1). rewrite transition_issue_full. cbv zeta.
  destruct (transition_lookup _ _) as [tid|e]; [|now left].
  destruct (truthy tid); [|now left].
  right. exists tid. rewrite <- app_assoc.
  destruct (backend _ (transition_request jira_manager (String c1 s1) tid))
    as [r2|]; [|reflexivity].
  destruct (is_success r2); reflexivity.
Qed.

(** X26. What a tool call can send: at most two requests, never a PUT (no
    tool reaches [assign_issue]); every tool other than [create_issue] and
    [transition_issue] sends at most one request, a GET. *)
Theorem call_tool_requests (name : string) (args : arguments) (log : list request) :
  exists sent,
    fst (call_tool name args log) = (log ++ sent)%list /\
    (length sent <= 2)%nat /\
    Forall (fun req => meth req <> PUT) sent /\
    (name <> "create_issue" -> name <> "transition_issue" ->
     (length sent <= 1)%nat /\ Forall (fun req => meth req = GET) sent).
Proof.
  destruct (String.eqb_spec name "search_issues") as [-> | H1].
  { eexists. split; [apply call_tool_search_fst|].
    repeat split; simpl; try lia; repeat constructor; discriminate. }
  destruct (String.eqb_spec name "get_issue") as [-> | H2].
  { rewrite call_tool_get_issue_fst.
    destruct (arg "issue_key" (strings args)) as [[|c rest]|].
    - exists []. rewrite app_nil_r. repeat split; simpl; try lia; constructor.
    - eexists. split; [reflexivity|].
      repeat split; simpl; try lia; repeat constructor; discriminate.
    - exists []. rewrite app_nil_r. repeat split; simpl; try lia; constructor. }
  destruct (String.eqb_spec name "create_issue") as [-> | H3].
  { destruct (call_tool_create_fst args log) as [-> | [pk [s [d [t ->]]]]].
    - exists []. rewrite app_nil_r. repeat split; simpl; try lia; try constructor;
        congruence.
    - eexists. split; [reflexivity|].
      repeat split; simpl; try lia; repeat constructor; try discriminate;
        congruence. }
  destruct (String.eqb_spec name "transition_issue") as [-> | H4].
  { destruct (call_tool_transition_fst args log) as [-> | [k [-> | [tid ->]]]].
    - exists []. rewrite app_nil_r. repeat split; simpl; try lia; try constructor;
        congruence.
    - eexists. split; [reflexivity|].
      repeat split; simpl; try lia; repeat constructor; try discriminate;
        congruence.
    - eexists. split; [reflexivity|].
      repeat split; simpl; try lia; repeat constructor; try discriminate;
        congruence. }
  destruct (String.eqb_spec name "get_my_issues") as [-> | H5].
  { eexists. split; [apply call_tool_my_issues_fst|].
    repeat split; simpl; try lia; repeat constructor; discriminate. }
  exists []. rewrite (call_tool_unknown name args log H1 H2 H3 H4 H5), app_nil_r.
  repeat split; simpl; try lia; constructor.
Qed.

(** X27. The reply of the [create_issue] tool once its arguments pass and
    the backend accepts the POST: the issue type defaults to "Task"; when the
    response body is an object the reply names its [key], or null when the
    body has none; when the body is not an object the reply is the error
    reply for [AttributeError], although the issue was created. *)
Theorem create_issue_tool_reply (args : arguments) (log : list request)
    (pk s d : string) (r : response) (body : json) :
  arg "project_key" (strings args) = Some pk -> pk <> "" ->
  arg "summary" (strings args) = Some s -> s <> "" ->
  arg "description" (strings args) = Some d -> d <> "" ->
  let issue_type :=
    match arg "issue_type" (strings args) with Some t => t | None => "Task" end in
  let post := create_request jira_manager pk s d issue_type in
  backend log post = Responded r ->
  is_success r = true ->
  content r = Some body ->
  call_tool "create_issue" args log =
    ((log ++ [post])%list,
     Return (match body with
             | JObj members =>
                 IssueCreated
                   (match lookup "key" members with Some k => k | None => JNull end)
                   s
             | _ => ErrorReply AttributeError
             end)).
Proof.
  intros Hpk Hpk' Hs Hs' Hd Hd' issue_type post Hb Hok Hc.
  rewrite call_tool_create_run, Hpk, Hs, Hd.
  destruct pk as [|c1 s1]; [congruence|].
  destruct s as [|c2 s2]; [congruence|].
  destruct d as [|c3 s3]; [congruence|].
  rewrite create_issue_run. cbv zeta. fold issue_type. fold post.
  rewrite Hb, Hok, Hc. destruct body; reflexivity.
Qed.

(** X28. What the replies of the [transition_issue] tool guarantee: the
    "could not move" reply is given only after the GET of the transitions
    alone, so nothing was changed; the "moved" reply is given only after a
    POST that the backend answered with a success status. *)
Theorem transition_tool_reply_meaning (args : arguments)
    (log log' : list request) (k t : string) :
  (call_tool "transition_issue" args log = (log', Return (TransitionFailed k t)) ->
   arg "issue_key" (strings args) = Some k /\
   arg "transition" (strings args) = Some t /\
   log' = (log ++ [transitions_request jira_manager k])%list) /\
  (call_tool "transition_issue" args log = (log', Return (TransitionDone k t)) ->
   arg "issue_key" (strings args) = Some k /\
   arg "transition" (strings args) = Some t /\
   exists tid r2,
     log' = (log ++ [transitions_request jira_manager k;
                     transition_request jira_manager k tid])%list /\
     backend (log ++ [transitions_request jira_manager k])%list
       (transition_request jira_manager k tid) = Responded r2 /\
     is_success r2 = true).
Proof.
  split; rewrite call_tool_transition_run;
    destruct (arg "issue_key" (strings args)) as [[|c1 s1]|];
    destruct (arg "transition" (strings args)) as [[|c2 s2]|];
    try discriminate;
    rewrite transition_issue_full; cbv zeta;
    destruct (transition_lookup _ _) as [tid|e]; try discriminate;
    destruct (truthy tid); try discriminate.
  - destruct (backend _ (transition_request jira_manager (String c1 s1) tid))
      as [r2|]; [|discriminate].
    destruct (is_success r2); discriminate.
  - intro H. injection H as <- <- <-. auto.
  - destruct (backend _ (transition_request jira_manager (String c1 s1) tid))
      as [r2|] eqn:Hb; [|discriminate].
    destruct (is_success r2) eqn:Hs; [|discriminate].
    intro H. injection H as <- <- <-. repeat split.
    exists tid, r2. rewrite <- app_assoc. auto.
Qed.

End Adapter.

(* ===================================================================== *)
(** ** Evaluations on the sample documents *)

(** C1. On an issue whose description is a document with an empty content
    list, the description extraction raises [IndexError]: the default
    [[{}]] only covers an absent [content] key, not a present empty list.
    The exception leaves [get_issue] and [search_issues]. *)
Theorem empty_document_raises :
  field_description
    (JObj [("description",
            JObj [("type", JStr "doc"); ("version", JNum 1);
                  ("content", JArr [])])])
  = Raise IndexError /\
  issue_from_json empty_doc_issue = Raise IndexError /\
  get_issue (answer_all (ok empty_doc_issue)) sample_manager "ABC-1" [] =
    ([issue_request sample_manager "ABC-1"], Raise IndexError) /\
  search_issues (answer_all (ok (JObj [("issues", JArr [empty_doc_issue])])))
    sample_manager None None None 50 [] =
    ([search_request sample_manager "order by updated DESC" 50], Raise IndexError).
Proof. repeat split. Qed.

(** C2, counterexample: an issue with a null assignee normalises to a record
    whose assignee is "Sin asignar", not "unassigned". *)
Lemma null_assignee_is_sin_asignar :
  exists i,
    issue_from_json null_assignee_issue = Return i /\
    assignee i = JStr "Sin asignar" /\
    assignee i <> JStr "unassigned".
Proof.
  eexists. split; [reflexivity|]. split; [reflexivity | discriminate].
Qed.

Lemma normalizer_sentinels_witness :
  lookup "assignee" [("assignee", JNull)] = Some JNull /\
  field_assignee (JObj [("assignee", JNull)]) = Return (JStr "Sin asignar") /\
  issue_from_json (bare_issue "ABC-3") =
    Return (mkJiraIssue (JStr "ABC-3") (JStr "Sin título") (JStr "Desconocido")
              (JStr "Sin asignar") (JStr "Sin prioridad") (JStr "Desconocido")
              (JStr "") (JStr "") (JStr "")).
Proof.
  split; [reflexivity|]. split.
  - apply (proj1 (normalizer_sentinels [("assignee", JNull)])).
    right. reflexivity.
  - destruct (normalizer_sentinels []) as [Ha [Hp [Hs [Hst [Ht Hall]]]]].
    apply Hall;
      [ reflexivity | reflexivity
      | apply Hs; reflexivity
      | apply (Hst []); left; reflexivity
      | apply Ha; left; reflexivity
      | apply Hp; left; reflexivity
      | apply (Ht []); left; reflexivity
      | reflexivity | reflexivity | reflexivity ].
Defined.

Lemma build_jql_passthrough_witness :
  "project = X" <> "" /\
  build_jql (Some "project = X") (Some "me") (Some "ABC") = "project = X".
Proof.
  split; [discriminate|].
  apply (proj2 (proj2 (proj2 build_jql_examples_and_passthrough))).
  discriminate.
Defined.



(** C5, counterexample: a transition named "Done" matches the request
    "done", yet the method does not return true: when the backend rejects
    the POST it raises the HTTP failure, and when the matched transition
    carries an empty id it returns false without sending the POST.  The
    names are ASCII text, on which [str.lower] is [lower]. *)
Lemma matched_transition_not_true :
  find_transition lower [JObj [("id", JStr "31"); ("name", JStr "Done")]] "done"
  = Return (JStr "31") /\
  transition_issue (reject_writes (ok transitions_page)) lower sample_manager
    "ABC-1" "done" [] =
    ([transitions_request sample_manager "ABC-1";
      transition_request sample_manager "ABC-1" (JStr "31")],
     Raise (HTTPStatusError 400)) /\
  transition_issue (answer_all (ok blank_id_page)) lower sample_manager
    "ABC-1" "done" [] =
    ([transitions_request sample_manager "ABC-1"], Return false).
Proof. repeat split. Qed.

Lemma transition_issue_resolution_witness :
  transition_issue (answer_all (ok transitions_page)) lower sample_manager
    "ABC-1" "in progress" [] =
    ([transitions_request sample_manager "ABC-1";
      transition_request sample_manager "ABC-1" (JStr "21")],
     Return true) /\
  transition_issue (answer_all (ok transitions_page)) lower sample_manager
    "ABC-1" "reopen" [] =
    ([transitions_request sample_manager "ABC-1"], Return false) /\
  transition_issue (answer_all (ok blank_id_page)) lower sample_manager
    "ABC-1" "DONE" [] =
    ([transitions_request sample_manager "ABC-1"], Return false) /\
  find_transition lower
    [JObj [("id", JStr "21"); ("name", JStr "In Progress")]] "in progress"
  = Return (JStr "21").
Proof.
  split; [|split; [|split]];
    [| | | apply (proj1 (transition_issue_resolution
                           (answer_all (ok transitions_page)) lower
                           sample_manager "ABC-1" "in progress" []));
           reflexivity].
  - pose proof (transition_issue_resolution (answer_all (ok transitions_page)) lower
                  sample_manager "ABC-1" "in progress" []) as H.
    cbv zeta in H. destruct H as [_ [H _]].
    destruct (H (ok transitions_page) transitions_page
                (JArr [JObj [("id", JStr "21"); ("name", JStr "In Progress")];
                       JObj [("id", JStr "31"); ("name", JStr "Done")]])
                [JObj [("id", JStr "21"); ("name", JStr "In Progress")];
                 JObj [("id", JStr "31"); ("name", JStr "Done")]]
                eq_refl eq_refl eq_refl eq_refl eq_refl) as [_ Hmatch].
    destruct (Hmatch [] (JObj [("id", JStr "21"); ("name", JStr "In Progress")])
                [JObj [("id", JStr "31"); ("name", JStr "Done")]]
                "In Progress" (JStr "21")
                eq_refl (Forall_nil _) eq_refl eq_refl eq_refl) as [_ Hsubmit].
    destruct (Hsubmit eq_refl) as [_ [_ Hrun]]. exact Hrun.
  - pose proof (transition_issue_resolution (answer_all (ok transitions_page)) lower
                  sample_manager "ABC-1" "reopen" []) as H.
    cbv zeta in H. destruct H as [_ [H _]].
    destruct (H (ok transitions_page) transitions_page
                (JArr [JObj [("id", JStr "21"); ("name", JStr "In Progress")];
                       JObj [("id", JStr "31"); ("name", JStr "Done")]])
                [JObj [("id", JStr "21"); ("name", JStr "In Progress")];
                 JObj [("id", JStr "31"); ("name", JStr "Done")]]
                eq_refl eq_refl eq_refl eq_refl eq_refl) as [Hnone _].
    apply Hnone.
    repeat constructor;
      [exists "In Progress" | exists "Done"]; (split; [reflexivity | discriminate]).
  - pose proof (transition_issue_resolution (answer_all (ok blank_id_page)) lower
                  sample_manager "ABC-1" "DONE" []) as H.
    cbv zeta in H. destruct H as [_ [H _]].
    destruct (H (ok blank_id_page) blank_id_page
                (JArr [JObj [("id", JStr ""); ("name", JStr "Done")]])
                [JObj [("id", JStr ""); ("name", JStr "Done")]]
                eq_refl eq_refl eq_refl eq_refl eq_refl) as [_ Hmatch].
    destruct (Hmatch [] (JObj [("id", JStr ""); ("name", JStr "Done")]) []
                "Done" (JStr "")
                eq_refl (Forall_nil _) eq_refl eq_refl eq_refl) as [Hblank _].
    apply Hblank. reflexivity.
Defined.

(** C6, counterexample: asked for at most one result, a backend that answers
    with a page of two issues makes [search_issues] return two. *)
Lemma search_issues_exceeds_max_results :
  exists issues,
    search_issues (answer_all (ok two_issues_page)) sample_manager
      None None None 1 [] =
      ([search_request sample_manager "order by updated DESC" 1], Return issues) /\
    (Z.of_nat (length issues) > 1)%Z.
Proof. eexists. split; [reflexivity|]. reflexivity. Qed.

Lemma search_issues_length_witness :
  exists issues,
    search_issues (answer_all (ok two_issues_page)) sample_manager
      None None None 2 [] =
      ([search_request sample_manager "order by updated DESC" 2], Return issues) /\
    length issues = 2%nat /\ (Z.of_nat (length issues) <= 2)%Z.
Proof.
  destruct (search_issues_length (answer_all (ok two_issues_page)) sample_manager
              None None None 2 [] (ok two_issues_page) two_issues_page
              [bare_issue "ABC-3"; bare_issue "ABC-4"]
              eq_refl eq_refl eq_refl eq_refl) as [_ [Hrun Hlen]].
  eexists. split; [exact Hrun|].
  destruct (Hlen _ eq_refl) as [Hl Hle]. split; [exact Hl|].
  apply Hle. cbn. lia.
Defined.

Lemma read_resource_errors_are_data_witness :
  read_resource (answer_all (ok two_issues_page)) sample_message sample_dumps
    sample_manager "jira://sprints" [] =
    ([], Return (sample_dumps
                   (JObj [("error", JStr "Recurso no encontrado: jira://sprints")])
                   2 true)) /\
  read_resource (answer_all (mkResponse 503 None)) sample_message sample_dumps
    sample_manager "jira://projects" [] =
    ([projects_request sample_manager],
     Return (sample_dumps
               (JObj [("error", JStr (sample_message (HTTPStatusError 503)))])
               2 true)).
Proof.
  split.
  - apply (proj1 (proj2 (read_resource_errors_are_data
                           (answer_all (ok two_issues_page)) sample_message
                           sample_dumps sample_manager "jira://sprints" [])));
      discriminate.
  - apply (proj2 (proj2 (read_resource_errors_are_data
                           (answer_all (mkResponse 503 None)) sample_message
                           sample_dumps sample_manager "jira://projects" []))
             (projects_request sample_manager) (HTTPStatusError 503)).
    + right. left. split; reflexivity.
    + reflexivity.
Defined.

Lemma missing_arguments_rejected_witness :
  arg "description" [("project_key", "ABC"); ("summary", "Fix login")] = None /\
  call_tool (answer_all (ok two_issues_page)) lower sample_manager "create_issue"
    (mkArguments [("project_key", "ABC"); ("summary", "Fix login")] None) [] =
    ([], Return MissingCreateArgs) /\
  call_tool (answer_all (ok two_issues_page)) lower sample_manager "get_issue"
    (mkArguments [] None) [] = ([], Return MissingIssueKey) /\
  call_tool (answer_all (ok two_issues_page)) lower sample_manager "transition_issue"
    (mkArguments [("issue_key", "ABC-1")] None) [] =
    ([], Return MissingTransitionArgs).
Proof.
  split; [reflexivity|]. split; [|split].
  - apply (proj1 (missing_arguments_rejected (answer_all (ok two_issues_page)) lower
                    sample_manager
                    (mkArguments [("project_key", "ABC"); ("summary", "Fix login")]
                       None) [])).
    right. right. reflexivity.
  - apply (proj1 (proj2 (missing_arguments_rejected
                           (answer_all (ok two_issues_page)) lower sample_manager
                           (mkArguments [] None) []))).
    reflexivity.
  - apply (proj1 (proj2 (proj2 (missing_arguments_rejected
                                  (answer_all (ok two_issues_page)) lower sample_manager
                                  (mkArguments [("issue_key", "ABC-1")] None) [])))).
    right. reflexivity.
Defined.

Lemma assign_issue_account_id_witness :
  "5b10a2844c20165700ede21g" <> "me" /\
  payload (assign_request sample_manager "ABC-1" "5b10a2844c20165700ede21g") =
    Some (JObj [("accountId", JStr "5b10a2844c20165700ede21g")]) /\
  payload (assign_request sample_manager "ABC-1" "me") =
    Some (JObj [("accountId", JNull)]) /\
  assign_issue (answer_all (mkResponse 204 None)) sample_manager "ABC-1"
    "5b10a2844c20165700ede21g" [] =
    ([assign_request sample_manager "ABC-1" "5b10a2844c20165700ede21g"],
     Return true).
Proof.
  split; [discriminate|].
  pose proof (assign_issue_account_id (answer_all (mkResponse 204 None))
                sample_manager "ABC-1" "5b10a2844c20165700ede21g" []) as H.
  pose proof (assign_issue_account_id (answer_all (mkResponse 204 None))
                sample_manager "ABC-1" "me" []) as Hme.
  cbv zeta in H, Hme.
  destruct H as [_ [_ [Hid [_ Hrun]]]]. destruct Hme as [_ [Hnull _]].
  split; [apply Hid; discriminate|].
  split; [apply Hnull; reflexivity|].
  apply (Hrun (mkResponse 204 None)); reflexivity.
Defined.

(** C10, counterexample: the backend answers with a success status and a
    body without [fields]; [get_issue] returns no Issue record, it raises
    [KeyError]. *)
Lemma get_issue_success_status_raises :
  is_success (ok (JObj [("key", JStr "ABC-1")])) = true /\
  get_issue (answer_all (ok (JObj [("key", JStr "ABC-1")]))) sample_manager
    "ABC-1" [] =
    ([issue_request sample_manager "ABC-1"], Raise (KeyError (JStr "fields"))).
Proof. split; reflexivity. Qed.

Lemma get_issue_never_none_witness :
  get_issue (answer_all (ok null_assignee_issue)) sample_manager "ABC-2" [] =
    ([issue_request sample_manager "ABC-2"],
     Return (Some (mkJiraIssue (JStr "ABC-2") (JStr "Fix login") (JStr "Open")
                     (JStr "Sin asignar") (JStr "High") (JStr "Bug")
                     (JStr "2024-01-01T10:00:00.000+0000")
                     (JStr "2024-01-02T10:00:00.000+0000") (JStr "")))) /\
  get_issue (answer_all (ok (JObj [("key", JStr "ABC-1")]))) sample_manager
    "ABC-1" [] =
    ([issue_request sample_manager "ABC-1"], Raise (KeyError (JStr "fields"))) /\
  get_issue (answer_all (mkResponse 200 None)) sample_manager "ABC-1" [] =
    ([issue_request sample_manager "ABC-1"], Raise JSONDecodeError) /\
  get_issue (answer_all (mkResponse 404 None)) sample_manager "ABC-1" [] =
    ([issue_request sample_manager "ABC-1"], Raise (HTTPStatusError 404)).
Proof.
  split; [|split; [|split]].
  - apply (proj1 (proj2 (get_issue_never_none
                           (answer_all (ok null_assignee_issue)) lower
                           sample_manager sample_manager "ABC-2" []))
             (ok null_assignee_issue) null_assignee_issue);
      reflexivity.
  - apply (proj1 (proj2 (proj2 (get_issue_never_none
                                  (answer_all (ok (JObj [("key", JStr "ABC-1")])))
                                  lower sample_manager sample_manager "ABC-1" [])))
             (ok (JObj [("key", JStr "ABC-1")])) (JObj [("key", JStr "ABC-1")]));
      reflexivity.
  - apply (proj1 (proj2 (proj2 (proj2 (get_issue_never_none
                                         (answer_all (mkResponse 200 None))
                                         lower sample_manager sample_manager
                                         "ABC-1" []))))
             (mkResponse 200 None));
      reflexivity.
  - apply (proj1 (proj2 (proj2 (proj2 (proj2 (get_issue_never_none
                                                (answer_all (mkResponse 404 None))
                                                lower sample_manager sample_manager
                                                "ABC-1" []))))));
      reflexivity.
Defined.

(* ===================================================================== *)
(** ** Evaluations of the further properties *)

Lemma build_jql_nonempty_witness :
  build_jql (Some "") (Some "") None <> "".
Proof. apply build_jql_nonempty. Defined.

Lemma present_values_pass_through_witness :
  lookup "summary" rich_issue_fields = Some JNull /\
  field_summary (JObj rich_issue_fields) = Return JNull.
Proof.
  split; [reflexivity|].
  apply (proj1 (present_values_pass_through rich_issue_fields JNull)).
  reflexivity.
Defined.

Lemma assignee_and_priority_cases_witness :
  field_assignee (JObj rich_issue_fields) = Return (JStr "Ana") /\
  field_priority (JObj rich_issue_fields) = Raise AttributeError.
Proof.
  split.
  - destruct (assignee_and_priority_cases rich_issue_fields
                (JObj [("displayName", JStr "Ana")])) as [Ha _].
    destruct (Ha eq_refl) as [_ [Hobj _]].
    apply (Hobj [("displayName", JStr "Ana")] eq_refl). discriminate.
  - destruct (assignee_and_priority_cases rich_issue_fields (JStr "High"))
      as [_ Hp].
    destruct (Hp eq_refl) as [_ [_ Hother]].
    apply Hother; [reflexivity | discriminate].
Defined.

Lemma description_is_first_run_witness :
  field_description (JObj rich_issue_fields) = Return (JStr "First").
Proof.
  apply (description_is_first_run rich_issue_fields
           [("type", JStr "doc");
            ("content",
             JArr [JObj [("type", JStr "paragraph");
                         ("content",
                          JArr [JObj [("type", JStr "text"); ("text", JStr "First")];
                                JObj [("type", JStr "text"); ("text", JStr " run")]])];
                   JObj [("type", JStr "paragraph")]])]
           [("type", JStr "paragraph");
            ("content",
             JArr [JObj [("type", JStr "text"); ("text", JStr "First")];
                   JObj [("type", JStr "text"); ("text", JStr " run")]])]
           [("type", JStr "text"); ("text", JStr "First")]
           [JObj [("type", JStr "paragraph")]]
           [JObj [("type", JStr "text"); ("text", JStr " run")]]);
    reflexivity.
Defined.

Lemma description_shallow_cases_witness :
  field_description (JObj [("description", JObj [("type", JStr "doc")])])
  = Return (JStr "") /\
  field_description
    (JObj [("description",
            JObj [("content", JArr [JObj [("type", JStr "paragraph")]])])])
  = Return (JStr "") /\
  field_description (JObj [("description", JStr "plain text")])
  = Raise AttributeError.
Proof.
  split; [|split].
  - apply (proj1 (description_shallow_cases
                    [("description", JObj [("type", JStr "doc")])])
             [("type", JStr "doc")]);
      [reflexivity | discriminate | reflexivity].
  - apply (proj1 (proj2 (description_shallow_cases
                           [("description",
                             JObj [("content",
                                    JArr [JObj [("type", JStr "paragraph")]])])]))
             [("content", JArr [JObj [("type", JStr "paragraph")]])]
             [("type", JStr "paragraph")] []);
      reflexivity.
  - apply (proj2 (proj2 (description_shallow_cases
                           [("description", JStr "plain text")]))
             "p"%char "lain text").
    reflexivity.
Defined.


Lemma project_failures_witness :
  project_from_json (JObj [("name", JStr "Alpha")]) = Raise (KeyError (JStr "key")) /\
  project_from_json
    (JObj [("key", JStr "ABC"); ("name", JStr "Alpha"); ("lead", JNull)])
  = Raise AttributeError.
Proof.
  split.
  - apply (proj1 (project_failures [("name", JStr "Alpha")])). reflexivity.
  - apply (proj2 (proj2 (project_failures
                           [("key", JStr "ABC"); ("name", JStr "Alpha");
                            ("lead", JNull)]))
             (JStr "ABC") (JStr "Alpha"));
      reflexivity.
Defined.

Lemma rstrip_removes_trailing_witness :
  rstrip "/" "https://example.atlassian.net//" = "https://example.atlassian.net" /\
  rstrip "/" "https://example.atlassian.net//" <> "https://example.atlassian.net" ++ "/".
Proof.
  split; [reflexivity|].
  apply (proj1 (proj2 (rstrip_removes_trailing "/"
                         "https://example.atlassian.net//"))).
Defined.

Lemma init_fails_iff_not_ascii_witness :
  is_ascii "josé@example.com" = false /\
  JiraManager_init sample_b64 "https://example.atlassian.net" "josé@example.com"
    "token" = UnicodeEncodeError.
Proof.
  split; [reflexivity|].
  apply (proj2 (init_fails_iff_not_ascii sample_b64
                  "https://example.atlassian.net" "josé@example.com" "token")).
  left. reflexivity.
Defined.

Lemma init_normalises_base_url_witness :
  exists self,
    JiraManager_init sample_b64 ("https://example.atlassian.net" ++ slashes 2)
      "ana@example.com" "token" = Constructed self /\
    jira_url self = "https://example.atlassian.net" /\
    url (issue_request self "ABC-1") =
      "https://example.atlassian.net/rest/api/3/issue/ABC-1".
Proof.
  destruct (init_normalises_base_url sample_b64 "https://example.atlassian.net"
              "ana@example.com" "token" 2 eq_refl eq_refl eq_refl)
    as [self [H1 [_ [H2 [H3 _]]]]].
  exists self. split; [exact H1|]. split; [exact H2|].
  rewrite (H3 "ABC-1"). reflexivity.
Defined.

Lemma failures_propagate_witness :
  failure (answer_all (mkResponse 404 None) []
             (issue_request sample_manager "ABC-9"))
  = Some (HTTPStatusError 404) /\
  get_issue (answer_all (mkResponse 404 None)) sample_manager "ABC-9" [] =
    ([issue_request sample_manager "ABC-9"], Raise (HTTPStatusError 404)).
Proof.
  split; [reflexivity|].
  destruct (failures_propagate (answer_all (mkResponse 404 None)) lower sample_manager
              [] (HTTPStatusError 404)) as [_ [_ [_ [H _]]]].
  apply (H "ABC-9"). reflexivity.
Defined.

Lemma search_issues_backend_order_witness :
  exists items,
    py_iter (JArr [bare_issue "ABC-3"; bare_issue "ABC-4"]) = Return items /\
    Forall2 (fun raw i => issue_from_json raw = Return i) items
      [mkJiraIssue (JStr "ABC-3") (JStr "Sin título") (JStr "Desconocido")
         (JStr "Sin asignar") (JStr "Sin prioridad") (JStr "Desconocido")
         (JStr "") (JStr "") (JStr "");
       mkJiraIssue (JStr "ABC-4") (JStr "Sin título") (JStr "Desconocido")
         (JStr "Sin asignar") (JStr "Sin prioridad") (JStr "Desconocido")
         (JStr "") (JStr "") (JStr "")].
Proof.
  destruct (search_issues_backend_order (answer_all (ok two_issues_page))
              sample_manager None None None 50 [] _ _ eq_refl)
    as [r [data [found [items [Hb [_ [Hc [Hf [Hi H]]]]]]]]].
  injection Hb as <-. injection Hc as <-. injection Hf as <-.
  exists items. split; [exact Hi | exact H].
Defined.

Lemma search_issues_all_or_nothing_witness :
  search_issues (answer_all (ok mixed_page)) sample_manager None None None 50 [] =
    ([search_request sample_manager "order by updated DESC" 50], Raise IndexError).
Proof.
  apply (search_issues_all_or_nothing (answer_all (ok mixed_page)) sample_manager
           None None None 50 [] (ok mixed_page) mixed_page
           [bare_issue "ABC-3"] [bare_issue "ABC-4"] empty_doc_issue IndexError);
    try reflexivity.
  repeat constructor. eexists. reflexivity.
Defined.

Lemma get_projects_backend_order_witness :
  exists items,
    py_iter projects_page = Return items /\
    Forall2 (fun raw p => project_from_json raw = Return p) items
      [mkJiraProject (JStr "ABC") (JStr "Alpha") (JStr "unknown")
         (JStr "Sin asignar");
       mkJiraProject (JStr "XYZ") (JStr "Omega") (JStr "software") (JStr "Ana")].
Proof.
  destruct (proj1 (get_projects_backend_order (answer_all (ok projects_page))
                     sample_manager []) _ _ eq_refl)
    as [r [data [items [Hb [_ [Hc [Hi H]]]]]]].
  injection Hb as <-. injection Hc as <-.
  exists items. split; [exact Hi | exact H].
Defined.

Lemma transition_issue_ignores_case_witness :
  lower "DONE" = lower "done" /\
  transition_issue (answer_all (ok transitions_page)) lower sample_manager "ABC-1"
    "DONE" [] =
  transition_issue (answer_all (ok transitions_page)) lower sample_manager "ABC-1"
    "done" [].
Proof.
  split; [reflexivity|].
  apply transition_issue_ignores_case. reflexivity.
Defined.

Lemma transition_lookup_aborts_on_unreadable_entry_witness :
  transition_issue (answer_all (ok unreadable_page)) lower sample_manager "ABC-1"
    "done" [] =
    ([transitions_request sample_manager "ABC-1"], Raise (KeyError (JStr "name"))).
Proof.
  apply (transition_lookup_aborts_on_unreadable_entry
           (answer_all (ok unreadable_page)) lower sample_manager "ABC-1" "done" []
           (ok unreadable_page) unreadable_page []
           [JObj [("id", JStr "31"); ("name", JStr "Done")]]
           (JObj [("id", JStr "11")]) (KeyError (JStr "name")));
    try reflexivity.
  constructor.
Defined.

Lemma unknown_tool_iff_undeclared_witness :
  call_tool (answer_all (ok two_issues_page)) lower sample_manager "assign_issue"
    (mkArguments [("issue_key", "ABC-1"); ("assignee", "me")] None) [] =
    ([], Return (UnknownTool "assign_issue")).
Proof.
  apply (proj1 (unknown_tool_iff_undeclared (answer_all (ok two_issues_page)) lower
                  sample_manager "assign_issue"
                  (mkArguments [("issue_key", "ABC-1"); ("assignee", "me")] None)
                  [])).
  simpl. intros [H | [H | [H | [H | [H | []]]]]]; discriminate H.
Defined.


Lemma listed_resources_are_served_witness :
  (exists req,
      meth req = GET /\ payload req = None /\
      fst (read_resource (answer_all (ok projects_page)) sample_message
             sample_dumps sample_manager "jira://projects" []) = [req]) /\
  fst (read_resource (answer_all (ok projects_page)) sample_message sample_dumps
         sample_manager "jira://boards" []) = [].
Proof.
  destruct (listed_resources_are_served (answer_all (ok projects_page))
              sample_message sample_dumps sample_manager "jira://projects" [])
    as [H _].
  destruct (listed_resources_are_served (answer_all (ok projects_page))
              sample_message sample_dumps sample_manager "jira://boards" [])
    as [_ H'].
  split.
  - apply H. simpl. auto.
  - apply H'. simpl. intros [H0 | [H0 | [H0 | []]]]; discriminate H0.
Defined.

Lemma search_tools_queries_witness :
  fst (call_tool (answer_all (ok two_issues_page)) lower sample_manager "get_my_issues"
         (mkArguments [("status", "Done")] None) []) =
    [search_request sample_manager
       "assignee = currentUser() AND status = 'Done' ORDER BY updated DESC" 30] /\
  fst (call_tool (answer_all (ok two_issues_page)) lower sample_manager "get_my_issues"
         (mkArguments [] None) []) =
    [search_request sample_manager
       "assignee = currentUser() ORDER BY updated DESC" 30].
Proof.
  split.
  - apply (proj2 (proj2 (search_tools_queries (answer_all (ok two_issues_page)) lower
                           sample_manager (mkArguments [("status", "Done")] None)
                           [])) "Done");
      [reflexivity | discriminate].
  - apply (proj1 (proj2 (search_tools_queries (answer_all (ok two_issues_page)) lower
                           sample_manager (mkArguments [] None) []))).
    reflexivity.
Defined.

Lemma tool_failures_become_replies_witness :
  call_tool (answer_all (mkResponse 404 None)) lower sample_manager "get_issue"
    (mkArguments [("issue_key", "ABC-9")] None) [] =
    ([issue_request sample_manager "ABC-9"],
     Return (ErrorReply (HTTPStatusError 404))).
Proof.
  destruct (tool_failures_become_replies (answer_all (mkResponse 404 None)) lower
              sample_manager (mkArguments [("issue_key", "ABC-9")] None) []
              (HTTPStatusError 404)) as [_ [H _]].
  apply (H "ABC-9"); [reflexivity | discriminate | reflexivity].
Defined.

Lemma call_tool_requests_witness :
  exists sent,
    fst (call_tool (answer_all (ok two_issues_page)) lower sample_manager
           "search_issues" (mkArguments [] None) []) = sent /\
    (length sent <= 1)%nat /\ Forall (fun req => meth req = GET) sent.
Proof.
  destruct (call_tool_requests (answer_all (ok two_issues_page)) lower sample_manager
              "search_issues" (mkArguments [] None) [])
    as [sent [Hs [_ [_ H]]]].
  exists sent. split; [exact Hs|]. apply H; discriminate.
Defined.

Lemma create_issue_tool_reply_witness :
  call_tool (answer_all (mkResponse 201 (Some (JObj [("id", JStr "10001")])))) lower
    sample_manager "create_issue"
    (mkArguments [("project_key", "ABC"); ("summary", "Fix login");
                  ("description", "Steps")] None) [] =
    ([create_request sample_manager "ABC" "Fix login" "Steps" "Task"],
     Return (IssueCreated JNull "Fix login")).
Proof.
  apply (create_issue_tool_reply
           (answer_all (mkResponse 201 (Some (JObj [("id", JStr "10001")])))) lower
           sample_manager
           (mkArguments [("project_key", "ABC"); ("summary", "Fix login");
                         ("description", "Steps")] None) []
           "ABC" "Fix login" "Steps"
           (mkResponse 201 (Some (JObj [("id", JStr "10001")])))
           (JObj [("id", JStr "10001")]));
    try reflexivity; discriminate.
Defined.

Lemma transition_tool_reply_meaning_witness :
  call_tool (answer_all (ok transitions_page)) lower sample_manager "transition_issue"
    (mkArguments [("issue_key", "ABC-1"); ("transition", "reopen")] None) [] =
    ([transitions_request sample_manager "ABC-1"],
     Return (TransitionFailed "ABC-1" "reopen")) /\
  [transitions_request sample_manager "ABC-1"] =
    ([] ++ [transitions_request sample_manager "ABC-1"])%list.
Proof.
  split; [reflexivity|].
  apply (proj1 (transition_tool_reply_meaning (answer_all (ok transitions_page)) lower
                  sample_manager
                  (mkArguments [("issue_key", "ABC-1"); ("transition", "reopen")]
                     None)
                  [] [transitions_request sample_manager "ABC-1"]
                  "ABC-1" "reopen")).
  reflexivity.
Defined.
